(** * Unified LLM chat (chat-app-ollama-docker/main.py)

    A shallow embedding of the Streamlit script: the provider registry,
    model discovery, the session-state store and the chat turn.  The two
    external collaborators (the OpenAI-compatible HTTP client and the
    Streamlit runtime) are modelled by a [world] of provider responses and
    by a trace of rendered elements and client calls. *)

From Stdlib Require Import String List Bool Lia.
From stdpp Require Import gmap strings list.

Open Scope string_scope.

(** ** Python control flow: exceptions and script control signals *)

(** [Exception e] stands for any instance of a subclass of Python's
    [Exception]; [e] is its [str()].  Streamlit's [st.stop()] and
    [st.rerun()] raise script-control exceptions, which derive from
    [BaseException] and are therefore not caught by [except Exception]. *)
Inductive signal :=
| Exception (e : string)
| StopException
| RerunException.

Inductive outcome (A : Type) :=
| Ret (a : A)
| Raise (s : signal).
Arguments Ret {A} a.
Arguments Raise {A} s.

(** Computations over a mutable store [S].  The store is returned in both
    cases: a raised exception does not roll back earlier mutations. *)
Definition M (S A : Type) : Type := S -> outcome A * S.

Definition ret {S A} (a : A) : M S A := fun s => (Ret a, s).

Definition bind {S A B} (c : M S A) (k : A -> M S B) : M S B :=
  fun s => match c s with
           | (Ret a, s') => k a s'
           | (Raise x, s') => (Raise x, s')
           end.

Definition raise {S A} (x : signal) : M S A := fun s => (Raise x, s).

Definition get {S} : M S S := fun s => (Ret s, s).

Definition modify {S} (f : S -> S) : M S unit := fun s => (Ret tt, f s).

(** [try: body except Exception as e: handler e] *)
Definition try_except {S A} (body : M S A) (handler : string -> M S A) : M S A :=
  fun s => match body s with
           | (Raise (Exception e), s') => handler e s'
           | r => r
           end.

Notation "'let*' x ':=' c 'in' k" := (bind c (fun x => k))
  (at level 10, x name, c at level 100, k at level 200).
Notation "c ;; k" := (bind c (fun _ => k))
  (at level 100, k at level 200, right associativity).

(** [for x in xs: body x] over an in-memory list. *)
Fixpoint for_each {S A} (xs : list A) (body : A -> M S unit) : M S unit :=
  match xs with
  | [] => ret tt
  | x :: xs' => body x ;; for_each xs' body
  end.

(** An iterator handed back by an external call: it yields finitely many
    items and then either ends or raises. *)
Inductive iter (A : Type) :=
| IterEnd
| IterRaise (e : string)
| IterNext (a : A) (rest : iter A).
Arguments IterEnd {A}.
Arguments IterRaise {A} e.
Arguments IterNext {A} a rest.

(** [for x in it: body x] over such an iterator. *)
Fixpoint for_iter {S A} (it : iter A) (body : A -> M S unit) : M S unit :=
  match it with
  | IterEnd => ret tt
  | IterRaise e => raise (Exception e)
  | IterNext a rest => body a ;; for_iter rest body
  end.

(** The items an iterator yields before it ends or raises. *)
Fixpoint yielded {A} (it : iter A) : list A :=
  match it with
  | IterNext a rest => a :: yielded rest
  | _ => []
  end.

(** The exception an iterator ends with, if any. *)
Fixpoint failure {A} (it : iter A) : option string :=
  match it with
  | IterEnd => None
  | IterRaise e => Some e
  | IterNext _ rest => failure rest
  end.

(** An external call either raises or returns an iterator. *)
Inductive response (A : Type) :=
| CallRaises (e : string)
| CallReturns (it : iter A).
Arguments CallRaises {A} e.
Arguments CallReturns {A} it.

Definition resp_yielded {A} (r : response A) : list A :=
  match r with CallRaises _ => [] | CallReturns it => yielded it end.

Definition resp_failure {A} (r : response A) : option string :=
  match r with CallRaises e => Some e | CallReturns it => failure it end.

(** ** Python dicts: insertion-ordered, one entry per key *)

Definition pydict (V : Type) : Type := list (string * V).

Fixpoint dict_get {V} (d : pydict V) (k : string) : option V :=
  match d with
  | [] => None
  | (k', v) :: d' => if String.eqb k' k then Some v else dict_get d' k
  end.

(** [d[k] = v]: overwrite in place when [k] is present, append otherwise. *)
Fixpoint dict_set {V} (d : pydict V) (k : string) (v : V) : pydict V :=
  match d with
  | [] => [(k, v)]
  | (k', v') :: d' =>
      if String.eqb k' k then (k', v) :: d' else (k', v') :: dict_set d' k v
  end.

Definition dict_keys {V} (d : pydict V) : list string := map fst d.

(** Number of entries stored under key [k]. *)
Fixpoint dict_count {V} (d : pydict V) (k : string) : nat :=
  match d with
  | [] => 0
  | (k', _) :: d' => (if String.eqb k' k then 1 else 0) + dict_count d' k
  end.

(** At most one entry per key. *)
Definition unique_keys {V} (d : pydict V) : Prop := forall k, dict_count d k <= 1.

(** ** Configuration (lines 7-20) *)

Record provider_config := {
  p_name : string;
  p_description : string;
  p_url : string;
  p_api_key : string
}.

Definition PROVIDERS : pydict provider_config :=
  [ ("ollama",
      {| p_name := "Ollama";
         p_description := "Ollama is an open-source tool for running large language models locally.";
         p_url := "http://localhost:11434/v1";
         p_api_key := "ollama" |});
    ("docker",
      {| p_name := "Docker";
         p_description := "Docker is a platform for developing, shipping, and running applications in containers.";
         p_url := "http://localhost:12434/engines/v1";
         p_api_key := "unused" |}) ].

(** ** Data *)

Record model_info := {
  m_name : string;
  m_provider : string;
  m_display_name : string
}.

Record message := { role : string; content : string }.

(** The body of a chat-completions request. *)
Record request := {
  req_model : string;
  req_messages : list (string * string);
  req_stream : bool
}.

(** What the program does to the outside: calls of the OpenAI client and
    elements handed to the Streamlit display.  A call event stands for one
    call of a client method by the script, [client.models.list()] or
    [client.chat.completions.create(...)], with the base URL and API key of
    the client.  The clients are built with the library's default retry
    setting, so the library may send more than one HTTP request to carry
    out one call; how many it sends is not part of this model. *)
Inductive event :=
| ModelsListCall (base_url api_key : string)
| ChatCompletionsCall (base_url api_key : string) (req : request)
| PageConfig (page_title layout : string)
| Title (s : string)
| Write (s : string)
| Spinner (s : string)
| Warning (s : string)
| Error (s : string)
| Header (s : string)
| Selectbox (label : string) (options : list string) (key : string)
| Button (label : string)
| ChatMessage (role : string)
| Markdown (s : string)
| ChatInput (placeholder : string)
| StreamChunk (s : string).

(** The providers as they answer at one moment: what a call of
    [models.list()] and of [chat.completions.create(...)] comes to, as the
    script sees it once the library is done with it, for a client built
    from a base URL and an API key. *)
Record world := {
  models_list : string -> string -> response string;
  chat_completions_create : string -> string -> request -> response string
}.

(** ** Model discovery (lines 24-43) *)

(** The local variables of [discover_models], and the client calls it makes. *)
Record locals := {
  models : pydict model_info;
  errors : list string;
  requests : list event
}.

Definition set_model (model_id : string) (info : model_info) : M locals unit :=
  modify (fun l => {| models := dict_set (models l) model_id info;
                      errors := errors l;
                      requests := requests l |}).

Definition errors_append (msg : string) : M locals unit :=
  modify (fun l => {| models := models l;
                      errors := errors l ++ [msg];
                      requests := requests l |}).

(** [OpenAI(base_url=..., api_key=...).models.list()] *)
Definition client_models_list (w : world) (base_url api_key : string)
  : M locals (iter string) :=
  modify (fun l => {| models := models l;
                      errors := errors l;
                      requests := requests l ++ [ModelsListCall base_url api_key] |}) ;;
  match models_list w base_url api_key with
  | CallRaises e => raise (Exception e)
  | CallReturns it => ret it
  end.

Definition display_name_of (model_id : string) (provider_config : provider_config)
  : string :=
  model_id +:+ " (" +:+ p_name provider_config +:+ ")".

Definition connect_error (provider_config : provider_config) (e : string) : string :=
  "Could not connect to " +:+ p_name provider_config +:+ " at "
    +:+ p_url provider_config +:+ ": " +:+ e.

(** Lines 29-42: the [try]/[except] run for one provider. *)
Definition discover_provider (w : world)
    (provider_key : string) (provider_config : provider_config) : M locals unit :=
  try_except
    (let* it := client_models_list w (p_url provider_config)
                                      (p_api_key provider_config) in
     for_iter it (fun model_id =>
       set_model model_id
         {| m_name := model_id;
            m_provider := provider_key;
            m_display_name := display_name_of model_id provider_config |}))
    (fun e => errors_append (connect_error provider_config e)).

(** Lines 28-42 over a registry. *)
Definition discover_loop (w : world) (providers : pydict provider_config)
  : M locals unit :=
  for_each providers (fun '(provider_key, provider_config) =>
    discover_provider w provider_key provider_config).

Definition no_locals : locals := {| models := []; errors := []; requests := [] |}.

(** The undecorated function: runs the loop on fresh locals and returns
    [(models, errors)]; the client calls made come along as the final
    component of the store. *)
Definition discover_models (w : world)
  : outcome (pydict model_info * list string) * locals :=
  (discover_loop w PROVIDERS ;;
   let* l := get in
   ret (models l, errors l)) no_locals.

(** ** Session state and the Streamlit runtime *)

(** What the script stores in [st.session_state]. *)
Inductive value :=
| VModels (d : pydict model_info)
| VErrors (l : list string)
| VMessages (l : list message)
| VStr (s : string).

(** [session_state] is the per-session store, [data_cache] the cell that
    [st.cache_data] keeps for the argument-less [discover_models], and
    [trace] the client calls made and the elements rendered so far. *)
Record runtime := {
  session_state : gmap string value;
  data_cache : option (pydict model_info * list string);
  trace : list event
}.

Definition emit (e : event) : M runtime unit :=
  modify (fun rt => {| session_state := session_state rt;
                       data_cache := data_cache rt;
                       trace := trace rt ++ [e] |}).

(** [key in st.session_state] *)
Definition ss_contains (key : string) : M runtime bool :=
  let* rt := get in
  ret (match session_state rt !! key with Some _ => true | None => false end).

(** [st.session_state[key] = v] *)
Definition ss_set (key : string) (v : value) : M runtime unit :=
  modify (fun rt => {| session_state := <[key := v]> (session_state rt);
                       data_cache := data_cache rt;
                       trace := trace rt |}).

Definition KeyError (key : string) : signal := Exception ("KeyError: " +:+ key).
Definition TypeError (key : string) : signal := Exception ("TypeError: " +:+ key).

(** [st.session_state.models] *)
Definition ss_get_models : M runtime (pydict model_info) :=
  let* rt := get in
  match session_state rt !! "models" with
  | Some (VModels d) => ret d
  | Some _ => raise (TypeError "models")
  | None => raise (KeyError "models")
  end.

(** [st.session_state.errors] *)
Definition ss_get_errors : M runtime (list string) :=
  let* rt := get in
  match session_state rt !! "errors" with
  | Some (VErrors l) => ret l
  | Some _ => raise (TypeError "errors")
  | None => raise (KeyError "errors")
  end.

(** [f"messages_{model_id}"] *)
Definition messages_key (model_id : string) : string := "messages_" +:+ model_id.

(** [st.session_state[f"messages_{model_id}"]] *)
Definition ss_get_messages (model_id : string) : M runtime (list message) :=
  let* rt := get in
  match session_state rt !! messages_key model_id with
  | Some (VMessages l) => ret l
  | Some _ => raise (TypeError (messages_key model_id))
  | None => raise (KeyError (messages_key model_id))
  end.

(** [st.session_state[f"messages_{model_id}"].append(msg)] *)
Definition transcript_append (model_id : string) (msg : message) : M runtime unit :=
  let* l := ss_get_messages model_id in
  ss_set (messages_key model_id) (VMessages (l ++ [msg])).

(** [d[k]] for a Python dict, as a computation. *)
Definition dict_lookup {S V} (d : pydict V) (k : string) : M S V :=
  match dict_get d k with
  | Some v => ret v
  | None => raise (KeyError k)
  end.

(** [@st.cache_data] around [discover_models] (line 23): the function takes
    no argument, so the cache holds at most one result; a stored result is
    returned without running the body. *)
Definition discover_models_cached (w : world)
  : M runtime (pydict model_info * list string) :=
  fun rt =>
    match data_cache rt with
    | Some r => (Ret r, rt)
    | None =>
        match discover_models w with
        | (Ret r, l) =>
            (Ret r, {| session_state := session_state rt;
                       data_cache := Some r;
                       trace := trace rt ++ requests l |})
        | (Raise x, l) =>
            (Raise x, {| session_state := session_state rt;
                         data_cache := None;
                         trace := trace rt ++ requests l |})
        end
    end.

(** ** The script, top to bottom *)

(** Lines 50-52. *)
Definition init_discovery (w : world) : M runtime unit :=
  let* present := ss_contains "models" in
  if (present : bool) then ret tt
  else
    emit (Spinner "Discovering local models...") ;;
    let* r := discover_models_cached w in
    ss_set "models" (VModels (fst r)) ;;
    ss_set "errors" (VErrors (snd r)).

(** Lines 55-57. *)
Definition show_errors : M runtime unit :=
  let* errs := ss_get_errors in
  for_each errs (fun error => emit (Warning error)).

Definition no_models_message : string :=
  "No models found from any provider. Please ensure Ollama or another provider is running and has models available.".

(** Lines 59-61. *)
Definition no_models_guard : M runtime unit :=
  let* ms := ss_get_models in
  match ms with
  | [] => emit (Error no_models_message) ;; raise StopException
  | _ :: _ => ret tt
  end.

(** Line 65: [{info["display_name"]: model_id for model_id, info in models.items()}] *)
Definition model_options_of (ms : pydict model_info) : pydict string :=
  fold_left (fun acc kv => dict_set acc (m_display_name (snd kv)) (fst kv)) ms [].

Definition selected_model_key : string := "selected_model_display_name".

(** The value of a keyed select widget: it lives in the session state
    under [key]; a stored value that is one of the options is kept,
    otherwise the option at index 0 is taken and stored.  With no options
    there is no value. *)
Definition widget_value (options : list string) (key : string)
  : M runtime (option string) :=
  let* rt := get in
  let chosen :=
    match session_state rt !! key with
    | Some (VStr s) => if bool_decide (s ∈ options) then Some s else head options
    | _ => head options
    end in
  match chosen with
  | Some s => ss_set key (VStr s) ;; ret (Some s)
  | None => ret None
  end.

(** [st.selectbox(label, options=..., index=0, key=...)] *)
Definition selectbox (label : string) (options : list string) (key : string)
  : M runtime (option string) :=
  emit (Selectbox label options key) ;;
  widget_value options key.

(** Lines 79-80: the body of the Clear Chat History button. *)
Definition clear_chat_history (selected_model_id : string) : M runtime unit :=
  ss_set (messages_key selected_model_id) (VMessages []) ;;
  raise RerunException.

(** Lines 83-84. *)
Definition init_transcript (selected_model_id : string) : M runtime unit :=
  let* present := ss_contains (messages_key selected_model_id) in
  if (present : bool) then ret tt
  else ss_set (messages_key selected_model_id) (VMessages []).

(** Lines 87-89. *)
Definition show_transcript (selected_model_id : string) : M runtime unit :=
  let* l := ss_get_messages selected_model_id in
  for_each l (fun message =>
    emit (ChatMessage (role message)) ;; emit (Markdown (content message))).

(** Lines 93-94: the owning provider of the selected model. *)
Definition resolve_provider (ms : pydict model_info) (selected_model_id : string)
  : M runtime provider_config :=
  let* info := dict_lookup ms selected_model_id in
  let selected_provider_key := m_provider info in
  dict_lookup PROVIDERS selected_provider_key.

(** One call of [client.chat.completions.create(...)] for a client of
    [provider_config]. *)
Definition chat_completions (w : world) (provider_config : provider_config)
    (req : request) : M runtime (iter string) :=
  emit (ChatCompletionsCall (p_url provider_config) (p_api_key provider_config) req) ;;
  match chat_completions_create w (p_url provider_config) (p_api_key provider_config) req with
  | CallRaises e => raise (Exception e)
  | CallReturns it => ret it
  end.

(** [st.write_stream(stream)]: every fragment goes to the display as it
    arrives; the concatenation is returned when the stream ends. *)
Fixpoint write_stream (stream : iter string) : M runtime string :=
  match stream with
  | IterEnd => ret ""
  | IterRaise e => raise (Exception e)
  | IterNext chunk rest =>
      emit (StreamChunk chunk) ;;
      let* response := write_stream rest in
      ret (chunk +:+ response)
  end.

Definition error_message_of (e : string) : string := "An error occurred: " +:+ e.

(** Lines 93-114: the body of the chat-input handler. *)
Definition chat_turn (w : world) (ms : pydict model_info)
    (selected_model_id prompt : string) : M runtime unit :=
  let* provider_config := resolve_provider ms selected_model_id in
  transcript_append selected_model_id {| role := "user"; content := prompt |} ;;
  emit (ChatMessage "user") ;;
  emit (Markdown prompt) ;;
  emit (ChatMessage "assistant") ;;
  try_except
    (let* l := ss_get_messages selected_model_id in
     let* stream :=
       chat_completions w provider_config
         {| req_model := selected_model_id;
            req_messages := map (fun m => (role m, content m)) l;
            req_stream := true |} in
     let* response := write_stream stream in
     transcript_append selected_model_id {| role := "assistant"; content := response |})
    (fun e =>
       let error_message := error_message_of e in
       emit (Error error_message) ;;
       transcript_append selected_model_id
         {| role := "assistant"; content := error_message |}).

(** What the user did before this run of the script: the option picked in
    the model selector, if it was touched, whether the Clear Chat History
    button was pressed, and the text submitted to the chat input, if any. *)
Record inputs := {
  picked : option string;
  clear_clicked : bool;
  submitted : option string
}.

(** Lines 92-114: the chat input and its handler.  [submitted] is what
    [st.chat_input] returns; [None] and the empty string are falsy, so the
    handler runs for a non-empty submission only. *)
Definition chat_input_handler (w : world) (ms : pydict model_info)
    (selected_model_id : string) (submitted : option string) : M runtime unit :=
  emit (ChatInput ("Message " +:+ selected_model_id +:+ "...")) ;;
  match submitted with
  | Some prompt =>
      if String.eqb prompt "" then ret tt
      else chat_turn w ms selected_model_id prompt
  | None => ret tt
  end.

(** Lines 78-114: what runs once a model is selected. *)
Definition after_selection (w : world) (i : inputs) (ms : pydict model_info)
    (selected_model_id : string) : M runtime unit :=
  emit (Button "Clear Chat History") ;;
  (if clear_clicked i then clear_chat_history selected_model_id else ret tt) ;;
  init_transcript selected_model_id ;;
  show_transcript selected_model_id ;;
  chat_input_handler w ms selected_model_id (submitted i).

(** Lines 64-114. *)
Definition main_ui (w : world) (i : inputs) : M runtime unit :=
  let* ms := ss_get_models in
  let model_options := model_options_of ms in
  emit (Header "Configuration") ;;
  let* selected_display_name :=
    selectbox "Select a Model:" (dict_keys model_options) selected_model_key in
  let* selected_model_id :=
    match selected_display_name with
    | Some d => dict_lookup model_options d
    | None => raise (KeyError "None")
    end in
  after_selection w i ms selected_model_id.

(** Lines 5-57: everything above the no-models guard. *)
Definition startup (w : world) : M runtime unit :=
  emit (PageConfig "LLM Chat Interface" "wide") ;;
  emit (Title "🤖 Unified LLM Chat") ;;
  emit (Write "Select a model from any running provider to start chatting.") ;;
  init_discovery w ;;
  show_errors.

(** One run of the whole script. *)
Definition script (w : world) (i : inputs) : M runtime unit :=
  startup w ;;
  no_models_guard ;;
  main_ui w i.

(** Streamlit writes the new value of a keyed widget into the session
    state before it runs the script again. *)
Definition user_picks (i : inputs) : M runtime unit :=
  match picked i with
  | Some d => ss_set selected_model_key (VStr d)
  | None => ret tt
  end.

(** One interaction: the widget state is updated, then the script runs. *)
Definition rerun (w : world) (i : inputs) : M runtime unit :=
  user_picks i ;;
  script w i.

(** Consecutive interactions within one session, each with the providers
    as they are at that time and with what the user did. *)
Fixpoint run_all (runs : list (world * inputs)) (rt : runtime) : runtime :=
  match runs with
  | [] => rt
  | (w, i) :: rest => run_all rest (snd (rerun w i rt))
  end.

(** A session that has just begun, in a process whose cache is empty. *)
Definition fresh : runtime :=
  {| session_state := ∅; data_cache := None; trace := [] |}.

(** ** Vocabulary for the statements *)

(** The entry that line 36 stores for [model_id] under a provider. *)
Definition entry_of (provider_key : string) (cfg : provider_config)
    (model_id : string) : model_info :=
  {| m_name := model_id;
     m_provider := provider_key;
     m_display_name := display_name_of model_id cfg |}.

(** The mapping after the ids [ids] of one provider have been stored. *)
Definition insert_ids (provider_key : string) (cfg : provider_config)
    (ids : list string) (d : pydict model_info) : pydict model_info :=
  fold_left (fun d id => dict_set d id (entry_of provider_key cfg id)) ids d.

(** What a registry entry's endpoint answers to the model listing. *)
Definition listing (w : world) (p : string * provider_config) : response string :=
  models_list w (p_url (snd p)) (p_api_key (snd p)).

(** The provider's listing yields [model_id]. *)
Definition exposes (w : world) (model_id : string)
    (p : string * provider_config) : bool :=
  bool_decide (model_id ∈ resp_yielded (listing w p)).

(** The provider's listing raises, at the call or while it is consumed. *)
Definition fails (w : world) (p : string * provider_config) : bool :=
  match resp_failure (listing w p) with Some _ => true | None => false end.

(** The error strings a provider contributes. *)
Definition error_of (w : world) (p : string * provider_config) : list string :=
  match resp_failure (listing w p) with
  | Some e => [connect_error (snd p) e]
  | None => []
  end.

(** The mapping after the providers [ps] have been processed in order. *)
Definition merged (w : world) (ps : pydict provider_config)
    (d : pydict model_info) : pydict model_info :=
  fold_left (fun d p => insert_ids (fst p) (snd p) (resp_yielded (listing w p)) d) ps d.

(** The provider processed last among those of [ps] whose listing yields
    [model_id]. *)
Fixpoint last_exposing (w : world) (model_id : string)
    (ps : pydict provider_config) : option (string * provider_config) :=
  match ps with
  | [] => None
  | p :: ps' =>
      match last_exposing w model_id ps' with
      | Some q => Some q
      | None => if exposes w model_id p then Some p else None
      end
  end.

(** How many providers of [ps] have a listing that yields [model_id]. *)
Definition exposing_count (w : world) (model_id : string)
    (ps : pydict provider_config) : nat :=
  length (List.filter (exposes w model_id) ps).

(** The text [st.write_stream] has accumulated from the fragments. *)
Definition accumulated (chunks : list string) : string :=
  foldr String.append "" chunks.

(** The request of line 104 for a transcript [l]. *)
Definition request_of (model_id : string) (l : list message) : request :=
  {| req_model := model_id;
     req_messages := map (fun m => (role m, content m)) l;
     req_stream := true |}.

(** The assistant message a chat turn stores for a provider response. *)
Definition reply_of (r : response string) : message :=
  {| role := "assistant";
     content := match resp_failure r with
                | None => accumulated (resp_yielded r)
                | Some e => "An error occurred: " +:+ e
                end |}.

(** What a chat turn shows below the assistant bubble. *)
Definition reply_events (r : response string) : list event :=
  (map StreamChunk (resp_yielded r) ++
   match resp_failure r with
   | None => []
   | Some e => [Error ("An error occurred: " +:+ e)]
   end)%list.

(** Every transcript stored in [rt] is still there in [rt'], possibly with
    more messages after it. *)
Definition extends (rt rt' : runtime) : Prop :=
  forall model_id t,
    session_state rt !! messages_key model_id = Some (VMessages t) ->
    exists t', session_state rt' !! messages_key model_id
               = Some (VMessages (t ++ t')).

(** The trace of [rt'] continues the trace of [rt]. *)
Definition continues (rt rt' : runtime) : Prop :=
  exists rest, trace rt' = (trace rt ++ rest)%list.

(** [c] keeps the relation [R] between the runtime it starts from and the
    one it leaves, and raises only signals allowed by [Q]. *)
Definition preserved (R : runtime -> runtime -> Prop) (Q : signal -> Prop)
    {A} (c : M runtime A) : Prop :=
  forall rt, R rt (snd (c rt)) /\ forall x, fst (c rt) = Raise x -> Q x.

(** The runtime once lines 69-75 have rendered the sidebar header and the
    model selector, and once the selector's value [d] has been stored. *)
Definition selector_rendered (ms : pydict model_info) (rt : runtime) : runtime :=
  {| session_state := session_state rt;
     data_cache := data_cache rt;
     trace := (trace rt ++ [Header "Configuration"])
       ++ [Selectbox "Select a Model:" (dict_keys (model_options_of ms))
             selected_model_key] |}.

Definition selected (d : string) (rt : runtime) : runtime :=
  {| session_state := <[selected_model_key := VStr d]> (session_state rt);
     data_cache := data_cache rt;
     trace := trace rt |}.

(** What lines 87-89 render for a transcript. *)
Definition bubbles (t : list message) : list event :=
  flat_map (fun m => [ChatMessage (role m); Markdown (content m)]) t.

(** [t] occurs in [s]. *)
Definition contains (s t : string) : Prop := exists a b, s = a +:+ t +:+ b.

(** ** Scenarios *)

Definition ollama_url : string := "http://localhost:11434/v1".

(** Ollama is unreachable; Docker lists [modelA] and streams a greeting. *)
Definition w_docker_only : world :=
  {| models_list := fun base_url _ =>
       if String.eqb base_url ollama_url then CallRaises "Connection error."
       else CallReturns (IterNext "modelA" IterEnd);
     chat_completions_create := fun _ _ _ =>
       CallReturns (IterNext "Hi" (IterNext " there" (IterNext "!" IterEnd))) |}.

(** Both providers list [llama3]; Ollama lists [phi] too. *)
Definition w_collision : world :=
  {| models_list := fun base_url _ =>
       if String.eqb base_url ollama_url
       then CallReturns (IterNext "llama3" (IterNext "phi" IterEnd))
       else CallReturns (IterNext "llama3" IterEnd);
     chat_completions_create := fun _ _ _ => CallReturns IterEnd |}.

(** Ollama answers with one well-formed entry followed by one on which
    reading the id raises; Docker is unreachable. *)
Definition w_partial : world :=
  {| models_list := fun base_url _ =>
       if String.eqb base_url ollama_url
       then CallReturns (IterNext "llama3" (IterRaise "'dict' object has no attribute 'id'"))
       else CallRaises "Connection error.";
     chat_completions_create := fun _ _ _ => CallReturns IterEnd |}.

(** Nothing is reachable. *)
Definition w_down : world :=
  {| models_list := fun _ _ => CallRaises "Connection error.";
     chat_completions_create := fun _ _ _ => CallRaises "Connection error." |}.

(** Docker lists [modelA]; every completion request times out. *)
Definition w_timeout : world :=
  {| models_list := models_list w_docker_only;
     chat_completions_create := fun _ _ _ => CallRaises "Request timed out." |}.

(** Docker lists [modelA]; every completion stream breaks after "Hi". *)
Definition w_broken : world :=
  {| models_list := models_list w_docker_only;
     chat_completions_create := fun _ _ _ =>
       CallReturns (IterNext "Hi" (IterRaise "connection lost")) |}.

(** What discovery stores in the first scenario, and a session in which
    the transcript of [modelA] has been created. *)
Definition ms_modelA : pydict model_info :=
  [("modelA", {| m_name := "modelA"; m_provider := "docker";
                 m_display_name := "modelA (Docker)" |})].

Definition rt_modelA : runtime :=
  {| session_state := {[ "messages_modelA" := VMessages [] ]};
     data_cache := None;
     trace := [] |}.

(** A session with a transcript for each of two models. *)
Definition said_to (who : string) : value :=
  VMessages [{| role := "user"; content := "hi " +:+ who |}].

Definition rt_two : runtime :=
  {| session_state :=
       <["messages_modelB" := said_to "B"]> {[ "messages_modelA" := said_to "A" ]};
     data_cache := None;
     trace := [] |}.

(** What discovery stores in the collision scenario, and a session that
    holds it and nothing else. *)
Definition ms_collision : pydict model_info :=
  [("llama3", {| m_name := "llama3"; m_provider := "docker";
                 m_display_name := "llama3 (Docker)" |});
   ("phi", {| m_name := "phi"; m_provider := "ollama";
              m_display_name := "phi (Ollama)" |})].

Definition rt_collision : runtime :=
  {| session_state := {[ "models" := VModels ms_collision ]};
     data_cache := None;
     trace := [] |}.

(** The user says hello, and the user presses Clear Chat History. *)
Definition says_hello : inputs :=
  {| picked := None; clear_clicked := false; submitted := Some "hello" |}.
Definition presses_clear : inputs :=
  {| picked := None; clear_clicked := true; submitted := None |}.

(** ** Python dicts *)

Section Dict.
Context {V : Type}.
Implicit Types (d : pydict V) (k : string) (v : V).

Lemma dict_get_set_eq d k v : dict_get (dict_set d k v) k = Some v.
Proof.
  induction d as [|[k' v'] d IH]; simpl.
  - by rewrite String.eqb_refl.
  - destruct (String.eqb k' k) eqn:E; simpl; rewrite E; auto.
Qed.

Lemma dict_get_set_ne d k k' v :
  k <> k' -> dict_get (dict_set d k v) k' = dict_get d k'.
Proof.
  intros Hne. induction d as [|[k0 v0] d IH]; simpl.
  - by destruct (String.eqb_spec k k').
  - destruct (String.eqb_spec k0 k) as [->|]; simpl.
    + by destruct (String.eqb_spec k k').
    + destruct (String.eqb k0 k'); auto.
Qed.

Lemma dict_count_set_ne d k k' v :
  k <> k' -> dict_count (dict_set d k v) k' = dict_count d k'.
Proof.
  intros Hne.
  induction d as [|[k0 v0] d IH]; simpl.
  - by destruct (String.eqb_spec k k').
  - destruct (String.eqb_spec k0 k) as [->|]; simpl.
    + reflexivity.
    + by rewrite IH.
Qed.

Lemma dict_count_set_eq d k v :
  dict_count (dict_set d k v) k = Nat.max 1 (dict_count d k).
Proof.
  induction d as [|[k0 v0] d IH]; simpl.
  - by rewrite String.eqb_refl.
  - destruct (String.eqb k0 k) eqn:E; simpl; rewrite E; simpl.
    + lia.
    + exact IH.
Qed.

Lemma unique_keys_nil : unique_keys ([] : pydict V).
Proof. intros k. simpl. lia. Qed.

Lemma unique_keys_set d k v : unique_keys d -> unique_keys (dict_set d k v).
Proof.
  intros Hd k'. destruct (String.eqb_spec k k') as [<-|Hne].
  - rewrite dict_count_set_eq. specialize (Hd k). lia.
  - rewrite dict_count_set_ne by done. apply Hd.
Qed.

Lemma dict_get_count d k v : dict_get d k = Some v -> 1 <= dict_count d k.
Proof.
  induction d as [|[k0 v0] d IH]; simpl; [done|].
  destruct (String.eqb k0 k); simpl; [lia | auto].
Qed.

Lemma dict_get_keys d k : k ∈ dict_keys d -> is_Some (dict_get d k).
Proof.
  unfold dict_keys.
  induction d as [|[k0 v0] d IH]; simpl.
  - intros H. by apply elem_of_nil in H.
  - intros H. destruct (String.eqb_spec k0 k) as [->|Hne]; [eauto|].
    apply elem_of_cons in H as [->|H]; [done | auto].
Qed.

Lemma dict_get_Some_keys d k v : dict_get d k = Some v -> k ∈ dict_keys d.
Proof.
  unfold dict_keys.
  induction d as [|[k0 v0] d IH]; simpl; [done|].
  destruct (String.eqb_spec k0 k) as [->|Hne].
  - intros _. apply elem_of_cons. by left.
  - intros H. apply elem_of_cons. right. auto.
Qed.
End Dict.

(** ** Model discovery *)

Section Discovery.
Variable w : world.

Lemma for_iter_set_model k cfg (it : iter string) (l : locals) :
  for_iter it (fun model_id => set_model model_id (entry_of k cfg model_id)) l =
  (match failure it with
   | None => Ret tt
   | Some e => Raise (Exception e)
   end,
   {| models := insert_ids k cfg (yielded it) (models l);
      errors := errors l;
      requests := requests l |}).
Proof.
  revert l. induction it as [|e|id rest IH]; intros [ms es rs]; simpl; try reflexivity.
  unfold bind, set_model, modify. simpl. rewrite IH. simpl.
  by destruct (failure rest).
Qed.

(** One provider: the run never raises, every yielded id is stored, and an
    error string is appended exactly when the listing raises. *)
Lemma discover_provider_run k cfg (l : locals) :
  discover_provider w k cfg l =
  (Ret tt,
   {| models := insert_ids k cfg (resp_yielded (listing w (k, cfg))) (models l);
      errors := errors l ++ error_of w (k, cfg);
      requests := requests l ++ [ModelsListCall (p_url cfg) (p_api_key cfg)] |}).
Proof.
  destruct l as [ms es rs].
  unfold discover_provider, try_except, bind, client_models_list, modify,
    error_of, listing. simpl.
  destruct (models_list w (p_url cfg) (p_api_key cfg)) as [e|it]; simpl.
  - reflexivity.
  - change (fun model_id : string => set_model model_id _)
      with (fun model_id => set_model model_id (entry_of k cfg model_id)).
    rewrite for_iter_set_model. simpl.
    destruct (failure it); simpl; [reflexivity|].
    by rewrite app_nil_r.
Qed.

Lemma discover_loop_run (ps : pydict provider_config) (l : locals) :
  discover_loop w ps l =
  (Ret tt,
   {| models := merged w ps (models l);
      errors := errors l ++ flat_map (error_of w) ps;
      requests := requests l
        ++ map (fun p => ModelsListCall (p_url (snd p)) (p_api_key (snd p))) ps |}).
Proof.
  revert l. induction ps as [|[k cfg] ps IH]; intros l.
  - destruct l. simpl. by rewrite !app_nil_r.
  - unfold discover_loop in *. simpl. unfold bind at 1.
    rewrite discover_provider_run, IH. simpl.
    by rewrite <- !app_assoc.
Qed.

Lemma discover_models_run :
  discover_models w =
  (Ret (merged w PROVIDERS [], flat_map (error_of w) PROVIDERS),
   {| models := merged w PROVIDERS [];
      errors := flat_map (error_of w) PROVIDERS;
      requests :=
        map (fun p => ModelsListCall (p_url (snd p)) (p_api_key (snd p))) PROVIDERS |}).
Proof.
  unfold discover_models, bind. rewrite discover_loop_run. reflexivity.
Qed.

Lemma insert_ids_snoc k cfg ids i d :
  insert_ids k cfg (ids ++ [i]) d =
  dict_set (insert_ids k cfg ids d) i (entry_of k cfg i).
Proof. unfold insert_ids. by rewrite fold_left_app. Qed.

Lemma insert_ids_get k cfg ids d id :
  dict_get (insert_ids k cfg ids d) id =
  if bool_decide (id ∈ ids) then Some (entry_of k cfg id) else dict_get d id.
Proof.
  induction ids as [|i ids IH] using rev_ind.
  - reflexivity.
  - rewrite insert_ids_snoc. destruct (decide (i = id)) as [->|Hne].
    + rewrite dict_get_set_eq, bool_decide_eq_true_2; [done|].
      apply elem_of_app. right. by apply list_elem_of_singleton.
    + rewrite dict_get_set_ne, IH by done.
      rewrite (bool_decide_ext (id ∈ (ids ++ [i])%list) (id ∈ ids)); [done|].
      rewrite elem_of_app, list_elem_of_singleton.
      split; [intros [?| ->]; done | by left].
Qed.

Lemma insert_ids_unique k cfg ids d :
  unique_keys d -> unique_keys (insert_ids k cfg ids d).
Proof.
  intros Hd. induction ids as [|i ids IH] using rev_ind; [done|].
  rewrite insert_ids_snoc. by apply unique_keys_set.
Qed.

(** Last write wins, over any registry. *)
Lemma merged_get ps d id :
  dict_get (merged w ps d) id =
  match last_exposing w id ps with
  | Some p => Some (entry_of (fst p) (snd p) id)
  | None => dict_get d id
  end.
Proof.
  revert d. induction ps as [|p ps IH]; intros d; [done|].
  unfold merged in *. simpl. rewrite IH.
  destruct (last_exposing w id ps); [done|].
  rewrite insert_ids_get. unfold exposes.
  by destruct (bool_decide _).
Qed.

Lemma merged_unique ps d : unique_keys d -> unique_keys (merged w ps d).
Proof.
  revert d. induction ps as [|p ps IH]; intros d Hd; [done|].
  unfold merged in *. simpl. apply IH. by apply insert_ids_unique.
Qed.

Lemma last_exposing_elem_of id ps p :
  last_exposing w id ps = Some p -> p ∈ ps /\ exposes w id p = true.
Proof.
  induction ps as [|q ps IH]; simpl; [done|].
  destruct (last_exposing w id ps) as [r|].
  - intros [= ->]. destruct IH as [? ?]; [done|]. split; [|done].
    apply elem_of_cons. by right.
  - destruct (exposes w id q) eqn:E; [|done].
    intros [= ->]. split; [|done]. apply elem_of_cons. by left.
Qed.

Lemma last_exposing_None id ps :
  last_exposing w id ps = None -> forall p, p ∈ ps -> exposes w id p = false.
Proof.
  induction ps as [|q ps IH]; simpl; intros H p Hp.
  - by apply elem_of_nil in Hp.
  - destruct (last_exposing w id ps) as [r|]; [done|].
    destruct (exposes w id q) eqn:E; [done|].
    apply elem_of_cons in Hp as [->|Hp]; [done | by apply IH].
Qed.

Lemma last_exposing_split id ps p :
  last_exposing w id ps = Some p ->
  exists before after,
    ps = (before ++ p :: after)%list /\
    exposes w id p = true /\
    forall q, q ∈ after -> exposes w id q = false.
Proof.
  revert p. induction ps as [|q ps IH]; simpl; intros p; [done|].
  destruct (last_exposing w id ps) as [r|] eqn:E.
  - intros [= ->]. destruct (IH p eq_refl) as (before & after & -> & Hp & Hafter).
    by exists (q :: before), after.
  - destruct (exposes w id q) eqn:Eq; [|done].
    intros [= ->]. exists [], ps. split; [done|]. split; [done|].
    by apply last_exposing_None.
Qed.

Lemma exposing_count_pos id ps :
  0 < exposing_count w id ps -> is_Some (last_exposing w id ps).
Proof.
  unfold exposing_count. induction ps as [|q ps IH]; simpl; [lia|].
  destruct (last_exposing w id ps); [by eauto|].
  destruct (exposes w id q); simpl; [by eauto|done].
Qed.

Lemma merged_provider_known ps id info :
  dict_get (merged w ps []) id = Some info ->
  m_provider info ∈ dict_keys ps.
Proof.
  rewrite merged_get. destruct (last_exposing w id ps) as [p|] eqn:E; [|done].
  intros [= <-]. simpl. apply last_exposing_elem_of in E as [Hp _].
  unfold dict_keys. by apply list_elem_of_fmap_2.
Qed.
End Discovery.

(** ** Strings *)

Lemma string_app_assoc (a b c : string) : (a +:+ b) +:+ c = a +:+ b +:+ c.
Proof.
  induction a as [|x a IH]; [done|].
  change (String x ((a +:+ b) +:+ c) = String x (a +:+ b +:+ c)). by f_equal.
Qed.

Lemma string_app_nil_r (a : string) : a +:+ "" = a.
Proof.
  induction a as [|x a IH]; [done|].
  change (String x (a +:+ "") = String x a). by f_equal.
Qed.

Lemma connect_error_contains cfg e :
  contains (connect_error cfg e) (p_name cfg) /\
  contains (connect_error cfg e) (p_url cfg) /\
  contains (connect_error cfg e) e.
Proof.
  unfold contains, connect_error. repeat split.
  - by eexists _, _.
  - exists ("Could not connect to " +:+ p_name cfg +:+ " at "), (": " +:+ e).
    by rewrite !string_app_assoc.
  - exists ("Could not connect to " +:+ p_name cfg +:+ " at " +:+ p_url cfg +:+ ": "), "".
    by rewrite string_app_nil_r, !string_app_assoc.
Qed.

(** ** Discovery: the claims *)

Lemma error_of_length (w : world) (ps : pydict provider_config) :
  length (flat_map (error_of w) ps) = length (List.filter (fails w) ps).
Proof.
  induction ps as [|p ps IH]; [done|].
  simpl. rewrite length_app, IH. unfold error_of, fails.
  by destruct (resp_failure (listing w p)).
Qed.

Lemma error_of_elem_of (w : world) (ps : pydict provider_config) p x :
  p ∈ ps -> x ∈ error_of w p -> x ∈ flat_map (error_of w) ps.
Proof.
  induction ps as [|q ps IH]; intros Hp Hx.
  - by apply elem_of_nil in Hp.
  - simpl. apply elem_of_app. apply elem_of_cons in Hp as [->|Hp]; auto.
Qed.

Lemma exposed_is_discovered (w : world) (ps : pydict provider_config) p id d :
  p ∈ ps -> id ∈ resp_yielded (listing w p) -> is_Some (dict_get (merged w ps d) id).
Proof.
  intros Hp Hid. rewrite merged_get.
  destruct (last_exposing w id ps) as [q|] eqn:E; [by eauto|].
  pose proof (last_exposing_None w id ps E p Hp) as Hno.
  unfold exposes in Hno. by rewrite bool_decide_eq_true_2 in Hno.
Qed.

(** C1. Whatever the providers answer, [discover_models] returns and does
    not raise.  The errors it returns are, in registry order, exactly one
    string per provider whose listing raised and none for the others; the
    string for a failing provider contains the provider's display name, its
    base URL and the text of the error.  Every provider is queried (a
    failure does not end the loop), and every id yielded by any provider is
    a key of the returned mapping. *)
Theorem discover_models_never_raises (w : world) :
  exists ms es l,
    discover_models w = (Ret (ms, es), l) /\
    es = flat_map (error_of w) PROVIDERS /\
    length es = length (List.filter (fails w) PROVIDERS) /\
    (forall p e, p ∈ PROVIDERS -> resp_failure (listing w p) = Some e ->
       error_of w p = [connect_error (snd p) e] /\
       connect_error (snd p) e ∈ es /\
       contains (connect_error (snd p) e) (p_name (snd p)) /\
       contains (connect_error (snd p) e) (p_url (snd p)) /\
       contains (connect_error (snd p) e) e) /\
    (forall p, p ∈ PROVIDERS -> resp_failure (listing w p) = None ->
       error_of w p = []) /\
    requests l =
      map (fun p => ModelsListCall (p_url (snd p)) (p_api_key (snd p))) PROVIDERS /\
    (forall p id, p ∈ PROVIDERS -> id ∈ resp_yielded (listing w p) ->
       is_Some (dict_get ms id)).
Proof.
  eexists _, _, _. split; [apply discover_models_run|].
  split; [done|]. split; [apply error_of_length|].
  split; [|split; [|split; [done|]]].
  - intros p e Hp He.
    assert (Herr : error_of w p = [connect_error (snd p) e])
      by (unfold error_of; by rewrite He).
    split; [done|]. split.
    + apply (error_of_elem_of w PROVIDERS p); [done|].
      rewrite Herr. by apply list_elem_of_singleton.
    + apply connect_error_contains.
  - intros p _ Hnone. unfold error_of. by rewrite Hnone.
  - intros p id Hp Hid. by apply (exposed_is_discovered w PROVIDERS p).
Qed.

(** The scenario of the specification: Ollama unreachable, Docker lists
    [modelA]. *)
Example discover_docker_only :
  fst (discover_models w_docker_only) =
  Ret ([("modelA", {| m_name := "modelA"; m_provider := "docker";
                      m_display_name := "modelA (Docker)" |})],
       ["Could not connect to Ollama at http://localhost:11434/v1: Connection error."]).
Proof. reflexivity. Qed.

(** The same scenario through the general statement: one error, and
    [modelA] is discovered. *)
Lemma discover_models_never_raises_witness :
  exists ms es l,
    discover_models w_docker_only = (Ret (ms, es), l) /\
    length es = 1 /\
    is_Some (dict_get ms "modelA").
Proof.
  destruct (discover_models_never_raises w_docker_only)
    as (ms & es & l & Hrun & _ & Hlen & _ & _ & _ & Hids).
  exists ms, es, l. split; [exact Hrun|]. split; [exact Hlen|].
  apply (Hids ("docker", {| p_name := "Docker";
                            p_description := "Docker is a platform for developing, shipping, and running applications in containers.";
                            p_url := "http://localhost:12434/engines/v1";
                            p_api_key := "unused" |}) "modelA").
  - apply list_elem_of_further, list_elem_of_here.
  - apply list_elem_of_here.
Defined.

(** C3, as stated, fails: Ollama's listing yields [llama3] and then raises,
    and the run of that one provider both stores [llama3] and records an
    error string. *)
Lemma provider_run_not_atomic :
  fst (discover_models w_partial) =
  Ret ([("llama3", {| m_name := "llama3"; m_provider := "ollama";
                      m_display_name := "llama3 (Ollama)" |})],
       ["Could not connect to Ollama at http://localhost:11434/v1: 'dict' object has no attribute 'id'";
        "Could not connect to Docker at http://localhost:12434/engines/v1: Connection error."]).
Proof. reflexivity. Qed.

(** C3, amended.  The run of one provider never raises and appends at most
    one error string, exactly when its listing raises.  A listing that
    completes contributes all of its ids and no error string; a listing
    that raises before it yields anything contributes no model and exactly
    one error string; a listing that raises after yielding some ids leaves
    those ids stored and records exactly one error string. *)
Theorem discover_provider_outcome (w : world) (k : string)
    (cfg : provider_config) (l : locals) :
  exists l',
    discover_provider w k cfg l = (Ret tt, l') /\
    models l' = insert_ids k cfg (resp_yielded (listing w (k, cfg))) (models l) /\
    (resp_failure (listing w (k, cfg)) = None -> errors l' = errors l) /\
    (forall e, resp_failure (listing w (k, cfg)) = Some e ->
       errors l' = (errors l ++ [connect_error cfg e])%list /\
       (resp_yielded (listing w (k, cfg)) = [] -> models l' = models l)).
Proof.
  eexists. split; [apply discover_provider_run|]. simpl.
  split; [done|]. unfold error_of. simpl. split.
  - intros ->. by rewrite app_nil_r.
  - intros e ->. split; [done|]. by intros ->.
Qed.

(** Ollama in the partial scenario: one id stays stored, one error is
    recorded. *)
Lemma discover_provider_outcome_witness :
  exists cfg l',
    dict_get PROVIDERS "ollama" = Some cfg /\
    discover_provider w_partial "ollama" cfg no_locals = (Ret tt, l') /\
    dict_keys (models l') = ["llama3"] /\
    errors l' = [connect_error cfg "'dict' object has no attribute 'id'"].
Proof.
  eexists. 
  destruct (discover_provider_outcome w_partial "ollama"
              {| p_name := "Ollama";
                 p_description := "Ollama is an open-source tool for running large language models locally.";
                 p_url := "http://localhost:11434/v1";
                 p_api_key := "ollama" |} no_locals)
    as (l' & Hrun & Hmodels & _ & Herr).
  exists l'. split; [reflexivity|]. split; [exact Hrun|].
  split; [by rewrite Hmodels|].
  by destruct (Herr _ eq_refl) as [-> _].
Defined.

(** C4. When the listings of more than one provider yield the same id, the
    mapping returned by [discover_models] holds exactly one entry for it,
    and that entry names the provider that comes last in the registry among
    those that yield the id. *)
Theorem collision_last_write_wins (w : world) (id : string) :
  1 < exposing_count w id PROVIDERS ->
  exists ms es l k cfg before after,
    discover_models w = (Ret (ms, es), l) /\
    PROVIDERS = (before ++ (k, cfg) :: after)%list /\
    exposes w id (k, cfg) = true /\
    (forall q, q ∈ after -> exposes w id q = false) /\
    dict_count ms id = 1 /\
    dict_get ms id =
      Some {| m_name := id; m_provider := k;
              m_display_name := display_name_of id cfg |}.
Proof.
  intros Hcount.
  destruct (exposing_count_pos w id PROVIDERS) as [[k cfg] Hlast]; [lia|].
  destruct (last_exposing_split w id PROVIDERS _ Hlast)
    as (before & after & Hsplit & Hexp & Hafter).
  assert (Hget : dict_get (merged w PROVIDERS []) id = Some (entry_of k cfg id))
    by (by rewrite merged_get, Hlast).
  exists (merged w PROVIDERS []), (flat_map (error_of w) PROVIDERS).
  eexists _, k, cfg, before, after.
  split; [apply discover_models_run|].
  repeat (split; [done|]). split; [|done].
  pose proof (merged_unique w PROVIDERS [] unique_keys_nil id).
  pose proof (dict_get_count _ _ _ Hget). lia.
Qed.

(** Two providers that both list [llama3]: the entry is Docker's. *)
Lemma collision_last_write_wins_witness :
  1 < exposing_count w_collision "llama3" PROVIDERS /\
  exists ms es l k cfg before after,
    discover_models w_collision = (Ret (ms, es), l) /\
    PROVIDERS = (before ++ (k, cfg) :: after)%list /\
    exposes w_collision "llama3" (k, cfg) = true /\
    (forall q, q ∈ after -> exposes w_collision "llama3" q = false) /\
    dict_count ms "llama3" = 1 /\
    dict_get ms "llama3" =
      Some {| m_name := "llama3"; m_provider := k;
              m_display_name := display_name_of "llama3" cfg |}.
Proof.
  assert (H : 1 < exposing_count w_collision "llama3" PROVIDERS)
    by (vm_compute; lia).
  split; [exact H|]. exact (collision_last_write_wins w_collision "llama3" H).
Defined.

Example discover_collision :
  fst (discover_models w_collision) =
  Ret ([("llama3", {| m_name := "llama3"; m_provider := "docker";
                      m_display_name := "llama3 (Docker)" |});
        ("phi", {| m_name := "phi"; m_provider := "ollama";
                   m_display_name := "phi (Ollama)" |})],
       []).
Proof. reflexivity. Qed.

Lemma discovery_provider_known (w : world) ms es l id info :
  discover_models w = (Ret (ms, es), l) ->
  dict_get ms id = Some info ->
  is_Some (dict_get PROVIDERS (m_provider info)).
Proof.
  rewrite discover_models_run. intros [= <- <- <-] Hget.
  apply dict_get_keys. exact (merged_provider_known w PROVIDERS id info Hget).
Qed.

(** C10. Every entry of a discovery result names a provider key of the
    registry, so for a discovered id the two lookups of the chat turn,
    [models[id]["provider"]] and [PROVIDERS[...]], both succeed. *)
Theorem discovered_provider_resolves (w : world) (ms : pydict model_info)
    (es : list string) (l : locals) (id : string) (info : model_info) :
  discover_models w = (Ret (ms, es), l) ->
  dict_get ms id = Some info ->
  exists cfg,
    dict_get PROVIDERS (m_provider info) = Some cfg /\
    forall rt, resolve_provider ms id rt = (Ret cfg, rt).
Proof.
  intros Hdisc Hget.
  destruct (discovery_provider_known w ms es l id info Hdisc Hget) as [cfg Hcfg].
  exists cfg. split; [done|]. intros rt.
  unfold resolve_provider, bind, dict_lookup.
  rewrite Hget. unfold ret. cbv beta iota. by rewrite Hcfg.
Qed.

(** [modelA] of the first scenario resolves to the Docker provider. *)
Lemma discovered_provider_resolves_witness :
  exists cfg,
    dict_get PROVIDERS "docker" = Some cfg /\
    forall rt,
      resolve_provider
        [("modelA", {| m_name := "modelA"; m_provider := "docker";
                       m_display_name := "modelA (Docker)" |})] "modelA" rt
      = (Ret cfg, rt).
Proof.
  exact (discovered_provider_resolves w_docker_only _ _ _ "modelA" _
           eq_refl eq_refl).
Defined.

(** ** Running the blocks of the script *)

Lemma bind_Ret {S A B} (c : M S A) (k : A -> M S B) s a s' :
  c s = (Ret a, s') -> bind c k s = k a s'.
Proof. intros H. unfold bind. by rewrite H. Qed.

Lemma bind_Raise {S A B} (c : M S A) (k : A -> M S B) s x s' :
  c s = (Raise x, s') -> bind c k s = (Raise x, s').
Proof. intros H. unfold bind. by rewrite H. Qed.

Lemma emit_run e rt :
  emit e rt =
  (Ret tt, {| session_state := session_state rt;
              data_cache := data_cache rt;
              trace := trace rt ++ [e] |}).
Proof. reflexivity. Qed.

Lemma ss_set_run key v rt :
  ss_set key v rt =
  (Ret tt, {| session_state := <[key := v]> (session_state rt);
              data_cache := data_cache rt;
              trace := trace rt |}).
Proof. reflexivity. Qed.

Lemma ss_get_messages_run id t rt :
  session_state rt !! messages_key id = Some (VMessages t) ->
  ss_get_messages id rt = (Ret t, rt).
Proof.
  intros H. unfold ss_get_messages. rewrite (bind_Ret _ _ rt rt rt) by done.
  by rewrite H.
Qed.

Lemma transcript_append_run id m t rt :
  session_state rt !! messages_key id = Some (VMessages t) ->
  transcript_append id m rt =
  (Ret tt, {| session_state :=
                <[messages_key id := VMessages (t ++ [m])]> (session_state rt);
              data_cache := data_cache rt;
              trace := trace rt |}).
Proof.
  intros H. unfold transcript_append.
  by rewrite (bind_Ret _ _ rt t rt) by by apply ss_get_messages_run.
Qed.

Lemma write_stream_run (it : iter string) rt :
  write_stream it rt =
  (match failure it with
   | None => Ret (accumulated (yielded it))
   | Some e => Raise (Exception e)
   end,
   {| session_state := session_state rt;
      data_cache := data_cache rt;
      trace := trace rt ++ map StreamChunk (yielded it) |}).
Proof.
  revert rt. induction it as [|e|chunk rest IH]; intros [ss dc tr]; simpl.
  - unfold ret. by rewrite app_nil_r.
  - unfold raise. by rewrite app_nil_r.
  - rewrite (bind_Ret _ _ _ _ _ (emit_run _ _)). simpl.
    unfold bind. rewrite IH. simpl. rewrite <- app_assoc. simpl.
    by destruct (failure rest).
Qed.

(** The [try] block of the chat turn and its handler, for a transcript
    [t1] that already ends with the user's message. *)
Lemma completion_run w cfg id t1 rt :
  session_state rt !! messages_key id = Some (VMessages t1) ->
  let r := chat_completions_create w (p_url cfg) (p_api_key cfg) (request_of id t1) in
  try_except
    (let* l := ss_get_messages id in
     let* stream := chat_completions w cfg (request_of id l) in
     let* response := write_stream stream in
     transcript_append id {| role := "assistant"; content := response |})
    (fun e =>
       emit (Error (error_message_of e)) ;;
       transcript_append id {| role := "assistant"; content := error_message_of e |})
    rt =
  (Ret tt,
   {| session_state :=
        <[messages_key id := VMessages (t1 ++ [reply_of r])]> (session_state rt);
      data_cache := data_cache rt;
      trace := trace rt
        ++ ChatCompletionsCall (p_url cfg) (p_api_key cfg) (request_of id t1)
        :: reply_events r |}).
Proof.
  intros Ht r. unfold try_except.
  rewrite (bind_Ret _ _ _ _ _ (ss_get_messages_run _ _ _ Ht)).
  unfold chat_completions at 1.
  set (rt1 := {| session_state := session_state rt; data_cache := data_cache rt;
                 trace := trace rt ++ [ChatCompletionsCall (p_url cfg) (p_api_key cfg)
                                         (request_of id t1)] |}).
  assert (Ht1 : session_state rt1 !! messages_key id = Some (VMessages t1)) by done.
  unfold bind at 1. rewrite (bind_Ret _ _ _ _ _ (emit_run _ _)). fold rt1.
  unfold reply_of, reply_events. fold r.
  destruct r as [e|it]; simpl.
  - rewrite (bind_Ret _ _ _ _ _ (emit_run _ _)).
    erewrite transcript_append_run by done. simpl.
    by rewrite <- app_assoc.
  - unfold bind at 1. rewrite write_stream_run.
    destruct (failure it) as [e|]; simpl.
    + rewrite (bind_Ret _ _ _ _ _ (emit_run _ _)).
      erewrite transcript_append_run by done. simpl.
      by rewrite <- !app_assoc.
    + erewrite transcript_append_run by done. simpl.
      by rewrite app_nil_r, <- !app_assoc.
Qed.

Lemma resolve_provider_run ms id info cfg rt :
  dict_get ms id = Some info ->
  dict_get PROVIDERS (m_provider info) = Some cfg ->
  resolve_provider ms id rt = (Ret cfg, rt).
Proof.
  intros Hget Hcfg. unfold resolve_provider, bind, dict_lookup.
  rewrite Hget. unfold ret. cbv beta iota. by rewrite Hcfg.
Qed.

(** The whole chat turn, for a discovered model whose transcript has been
    initialised. *)
Lemma chat_turn_run w ms id prompt info cfg t rt :
  dict_get ms id = Some info ->
  dict_get PROVIDERS (m_provider info) = Some cfg ->
  session_state rt !! messages_key id = Some (VMessages t) ->
  let user := {| role := "user"; content := prompt |} in
  let r := chat_completions_create w (p_url cfg) (p_api_key cfg)
             (request_of id (t ++ [user])) in
  chat_turn w ms id prompt rt =
  (Ret tt,
   {| session_state :=
        <[messages_key id := VMessages (t ++ [user; reply_of r])]> (session_state rt);
      data_cache := data_cache rt;
      trace := trace rt
        ++ [ChatMessage "user"; Markdown prompt; ChatMessage "assistant";
            ChatCompletionsCall (p_url cfg) (p_api_key cfg)
              (request_of id (t ++ [user]))]
        ++ reply_events r |}).
Proof.
  intros Hget Hcfg Ht user r. unfold chat_turn.
  rewrite (bind_Ret _ _ _ _ _ (resolve_provider_run _ _ _ _ _ Hget Hcfg)).
  rewrite (bind_Ret _ _ _ _ _ (transcript_append_run _ user _ _ Ht)).
  do 3 rewrite (bind_Ret _ _ _ _ _ (emit_run _ _)). cbn [trace session_state data_cache].
  match goal with |- try_except _ _ ?s = _ => set (rt1 := s) end.
  assert (Ht1 : session_state rt1 !! messages_key id = Some (VMessages (t ++ [user])))
    by apply lookup_insert_eq.
  etrans; [exact (completion_run w cfg id (t ++ [user]) rt1 Ht1)|].
  fold r. subst rt1. cbn [trace session_state data_cache].
  rewrite insert_insert_eq. rewrite <- !app_assoc. reflexivity.
Qed.

(** ** Session keys *)

Lemma messages_key_inj a b : messages_key a = messages_key b -> a = b.
Proof. unfold messages_key. apply String.app_inj. Qed.

Lemma messages_key_ne a b : a <> b -> messages_key a <> messages_key b.
Proof. intros Hne H. by apply Hne, messages_key_inj. Qed.

Lemma models_not_messages id : "models" <> messages_key id.
Proof. intros H. vm_compute in H. discriminate. Qed.

Lemma errors_not_messages id : "errors" <> messages_key id.
Proof. intros H. vm_compute in H. discriminate. Qed.

Lemma selected_not_messages id : selected_model_key <> messages_key id.
Proof. intros H. vm_compute in H. discriminate. Qed.

(** ** What every block of the script preserves *)

Section Preserved.
Variable R : runtime -> runtime -> Prop.
Variable Q : signal -> Prop.
Hypothesis R_refl : forall rt, R rt rt.
Hypothesis R_trans : forall rt1 rt2 rt3, R rt1 rt2 -> R rt2 rt3 -> R rt1 rt3.
(** Logging and caching keep [R]. *)
Hypothesis R_log : forall rt dc tr,
  R rt {| session_state := session_state rt; data_cache := dc;
          trace := trace rt ++ tr |}.
(** So does a store under a key that is not a transcript key, *)
Hypothesis R_set : forall key v rt,
  (forall id, key <> messages_key id) ->
  R rt {| session_state := <[key := v]> (session_state rt);
          data_cache := data_cache rt; trace := trace rt |}.
(** appending to a transcript, *)
Hypothesis R_append : forall id l m rt,
  session_state rt !! messages_key id = Some (VMessages l) ->
  R rt {| session_state := <[messages_key id := VMessages (l ++ [m])]> (session_state rt);
          data_cache := data_cache rt; trace := trace rt |}.
(** and creating a transcript that does not exist yet. *)
Hypothesis R_init : forall id rt,
  session_state rt !! messages_key id = None ->
  R rt {| session_state := <[messages_key id := VMessages []]> (session_state rt);
          data_cache := data_cache rt; trace := trace rt |}.
Hypothesis Q_exception : forall e, Q (Exception e).

Local Abbreviation ok := (preserved R Q).

Lemma preserved_ret {A} (a : A) : ok (ret a).
Proof. intros rt. split; [apply R_refl | done]. Qed.

Lemma preserved_raise {A} x : Q x -> ok (raise x : M runtime A).
Proof. intros Hx rt. split; [apply R_refl | by intros ? [= <-]]. Qed.

Lemma preserved_emit e : ok (emit e).
Proof. intros rt. split; [apply R_log | done]. Qed.

Lemma preserved_bind {A B} (c : M runtime A) (k : A -> M runtime B) :
  ok c -> (forall a, ok (k a)) -> ok (bind c k).
Proof.
  intros Hc Hk rt. unfold bind. destruct (Hc rt) as [Hr Hq].
  destruct (c rt) as [[a|x] rt1]; simpl in *.
  - destruct (Hk a rt1) as [Hr' Hq']. split; [by eapply R_trans | done].
  - split; [done|]. intros ? [= <-]. by apply Hq.
Qed.

Lemma preserved_get_bind {B} (k : runtime -> M runtime B) :
  (forall rt, R rt (snd (k rt rt)) /\ forall x, fst (k rt rt) = Raise x -> Q x) ->
  ok (bind get k).
Proof. intros Hk rt. apply Hk. Qed.

Lemma preserved_try_except {A} (body : M runtime A) handler :
  ok body -> (forall e, ok (handler e)) -> ok (try_except body handler).
Proof.
  intros Hb Hh rt. unfold try_except. destruct (Hb rt) as [Hr Hq].
  destruct (body rt) as [[a|[e| |]] rt1]; simpl in *; try done.
  destruct (Hh e rt1) as [Hr' Hq']. split; [by eapply R_trans | done].
Qed.

Lemma preserved_for_each {A} (xs : list A) (body : A -> M runtime unit) :
  (forall x, ok (body x)) -> ok (for_each xs body).
Proof.
  intros Hb. induction xs as [|x xs IH]; simpl.
  - apply preserved_ret.
  - apply preserved_bind; [apply Hb | done].
Qed.

Lemma preserved_ss_set_other key v :
  (forall id, key <> messages_key id) -> ok (ss_set key v).
Proof. intros Hkey rt. split; [by apply R_set | done]. Qed.

Lemma preserved_ss_contains key : ok (ss_contains key).
Proof. intros rt. split; [apply R_refl | done]. Qed.

Lemma preserved_ss_get_models : ok ss_get_models.
Proof.
  intros rt. unfold ss_get_models, bind, get.
  destruct (session_state rt !! "models") as [[]|];
    (split; [apply R_refl | try done; intros ? [= <-]; apply Q_exception]).
Qed.

Lemma preserved_ss_get_errors : ok ss_get_errors.
Proof.
  intros rt. unfold ss_get_errors, bind, get.
  destruct (session_state rt !! "errors") as [[]|];
    (split; [apply R_refl | try done; intros ? [= <-]; apply Q_exception]).
Qed.

Lemma preserved_ss_get_messages id : ok (ss_get_messages id).
Proof.
  intros rt. unfold ss_get_messages, bind, get.
  destruct (session_state rt !! messages_key id) as [[]|];
    (split; [apply R_refl | try done; intros ? [= <-]; apply Q_exception]).
Qed.

Lemma preserved_dict_lookup {V} (d : pydict V) k : ok (dict_lookup d k : M runtime V).
Proof.
  unfold dict_lookup. destruct (dict_get d k);
    [apply preserved_ret | apply preserved_raise, Q_exception].
Qed.

Lemma preserved_transcript_append id m : ok (transcript_append id m).
Proof.
  intros rt. unfold transcript_append, ss_get_messages, bind, get.
  destruct (session_state rt !! messages_key id) as [[| |l|]|] eqn:E;
    try (split; [apply R_refl | intros ? [= <-]; apply Q_exception]).
  split; [by apply R_append | done].
Qed.

Lemma preserved_init_transcript id : ok (init_transcript id).
Proof.
  intros rt. unfold init_transcript, ss_contains, bind, get. simpl.
  destruct (session_state rt !! messages_key id) eqn:E.
  - split; [apply R_refl | done].
  - split; [by apply R_init | done].
Qed.

Lemma preserved_show_transcript id : ok (show_transcript id).
Proof.
  apply preserved_bind; [apply preserved_ss_get_messages|].
  intros l. apply preserved_for_each. intros m.
  apply preserved_bind; intros; apply preserved_emit.
Qed.

Lemma preserved_widget_value options : ok (widget_value options selected_model_key).
Proof.
  apply preserved_get_bind. intros rt. cbv beta zeta.
  match goal with
  | |- context [match ?c with Some _ => _ | None => _ end rt] => destruct c
  end.
  - apply preserved_bind; [|intros; apply preserved_ret].
    apply preserved_ss_set_other, selected_not_messages.
  - apply preserved_ret.
Qed.

Lemma preserved_selectbox label options :
  ok (selectbox label options selected_model_key).
Proof.
  apply preserved_bind; [apply preserved_emit|]. intros _.
  apply preserved_widget_value.
Qed.

Lemma preserved_write_stream it : ok (write_stream it).
Proof.
  intros rt. rewrite write_stream_run. simpl. split; [apply R_log|].
  destruct (failure it); [intros ? [= <-]; apply Q_exception | done].
Qed.

Lemma preserved_chat_completions w cfg req : ok (chat_completions w cfg req).
Proof.
  apply preserved_bind; [apply preserved_emit|]. intros _.
  destruct (chat_completions_create _ _ _ _);
    [apply preserved_raise, Q_exception | apply preserved_ret].
Qed.

Lemma preserved_chat_turn w ms id prompt : ok (chat_turn w ms id prompt).
Proof.
  unfold chat_turn.
  apply preserved_bind.
  { unfold resolve_provider. apply preserved_bind; intros;
      apply preserved_dict_lookup. }
  intros cfg.
  apply preserved_bind; [apply preserved_transcript_append|]. intros _.
  do 3 (apply preserved_bind; [apply preserved_emit|]; intros _).
  apply preserved_try_except.
  - apply preserved_bind; [apply preserved_ss_get_messages|]. intros l.
    apply preserved_bind; [apply preserved_chat_completions|]. intros it.
    apply preserved_bind; [apply preserved_write_stream|]. intros response.
    apply preserved_transcript_append.
  - intros e.
    apply preserved_bind; [apply preserved_emit|]. intros _.
    apply preserved_transcript_append.
Qed.

Lemma preserved_chat_input_handler w ms id submitted :
  ok (chat_input_handler w ms id submitted).
Proof.
  apply preserved_bind; [apply preserved_emit|]. intros _.
  destruct submitted as [prompt|]; [|apply preserved_ret].
  destruct (String.eqb prompt ""); [apply preserved_ret|].
  apply preserved_chat_turn.
Qed.

Lemma preserved_discover_models_cached w : ok (discover_models_cached w).
Proof.
  intros rt. unfold discover_models_cached.
  destruct (data_cache rt); [split; [apply R_refl | done]|].
  rewrite discover_models_run. simpl. split; [apply R_log | done].
Qed.

Lemma preserved_init_discovery w : ok (init_discovery w).
Proof.
  apply preserved_bind; [apply preserved_ss_contains|]. intros [|].
  - apply preserved_ret.
  - apply preserved_bind; [apply preserved_emit|]. intros _.
    apply preserved_bind; [apply preserved_discover_models_cached|]. intros r.
    apply preserved_bind; [|intros _];
      apply preserved_ss_set_other;
      [apply models_not_messages | apply errors_not_messages].
Qed.

Lemma preserved_startup w : ok (startup w).
Proof.
  do 3 (apply preserved_bind; [apply preserved_emit|]; intros _).
  apply preserved_bind; [apply preserved_init_discovery|]. intros _.
  apply preserved_bind; [apply preserved_ss_get_errors|]. intros errs.
  apply preserved_for_each. intros; apply preserved_emit.
Qed.

Lemma preserved_no_models_guard : Q StopException -> ok no_models_guard.
Proof.
  intros Hstop.
  apply preserved_bind; [apply preserved_ss_get_models|]. intros [|? ?].
  - apply preserved_bind; [apply preserved_emit|]. intros _.
    by apply preserved_raise.
  - apply preserved_ret.
Qed.

(** Lines 78-114 for a selected model.  The Clear Chat History branch is
    the one place that stores something other than an extension of a
    transcript, so it is asked for separately. *)
Lemma preserved_after_selection w i ms id :
  (clear_clicked i = true -> ok (clear_chat_history id)) ->
  ok (after_selection w i ms id).
Proof.
  intros Hclear. unfold after_selection.
  apply preserved_bind; [apply preserved_emit|]. intros _.
  apply preserved_bind.
  { destruct (clear_clicked i); [by apply Hclear | apply preserved_ret]. }
  intros _.
  apply preserved_bind; [apply preserved_init_transcript|]. intros _.
  apply preserved_bind; [apply preserved_show_transcript|]. intros _.
  apply preserved_chat_input_handler.
Qed.

Lemma preserved_main_ui w i :
  (clear_clicked i = true -> forall id, ok (clear_chat_history id)) ->
  ok (main_ui w i).
Proof.
  intros Hclear. unfold main_ui.
  apply preserved_bind; [apply preserved_ss_get_models|]. intros ms.
  apply preserved_bind; [apply preserved_emit|]. intros _.
  apply preserved_bind; [apply preserved_selectbox|]. intros sel.
  apply preserved_bind.
  { destruct sel; [apply preserved_dict_lookup | apply preserved_raise, Q_exception]. }
  intros id. apply preserved_after_selection. auto.
Qed.

Lemma preserved_script w i :
  Q StopException ->
  (clear_clicked i = true -> forall id, ok (clear_chat_history id)) ->
  ok (script w i).
Proof.
  intros Hstop Hclear. unfold script.
  apply preserved_bind; [apply preserved_startup|]. intros _.
  apply preserved_bind; [by apply preserved_no_models_guard|]. intros _.
  by apply preserved_main_ui.
Qed.

Lemma preserved_rerun w i :
  Q StopException ->
  (clear_clicked i = true -> forall id, ok (clear_chat_history id)) ->
  ok (rerun w i).
Proof.
  intros Hstop Hclear. unfold rerun.
  apply preserved_bind; [|intros _; by apply preserved_script].
  unfold user_picks. destruct (picked i); [|apply preserved_ret].
  apply preserved_ss_set_other, selected_not_messages.
Qed.
End Preserved.

(** ** Transcripts only grow, except through Clear Chat History *)

Lemma extends_refl rt : extends rt rt.
Proof. intros id t H. exists []. by rewrite app_nil_r. Qed.

Lemma extends_trans rt1 rt2 rt3 :
  extends rt1 rt2 -> extends rt2 rt3 -> extends rt1 rt3.
Proof.
  intros H12 H23 id t H. destruct (H12 id t H) as [t1 H1].
  destruct (H23 id _ H1) as [t2 H2]. exists (t1 ++ t2)%list.
  by rewrite app_assoc.
Qed.

Lemma extends_set key v rt :
  (forall id, key <> messages_key id) ->
  extends rt {| session_state := <[key := v]> (session_state rt);
                data_cache := data_cache rt; trace := trace rt |}.
Proof.
  intros Hkey id t H. exists []. rewrite app_nil_r. simpl.
  by rewrite lookup_insert_ne.
Qed.

Lemma extends_append id l m rt :
  session_state rt !! messages_key id = Some (VMessages l) ->
  extends rt {| session_state :=
                  <[messages_key id := VMessages (l ++ [m])]> (session_state rt);
                data_cache := data_cache rt; trace := trace rt |}.
Proof.
  intros E id' t H. simpl. destruct (decide (id = id')) as [<-|Hne].
  - rewrite lookup_insert_eq. rewrite E in H. injection H as <-. by exists [m].
  - rewrite lookup_insert_ne by by apply messages_key_ne.
    exists []. by rewrite app_nil_r.
Qed.

Lemma extends_init id rt :
  session_state rt !! messages_key id = None ->
  extends rt {| session_state := <[messages_key id := VMessages []]> (session_state rt);
                data_cache := data_cache rt; trace := trace rt |}.
Proof.
  intros E id' t H. simpl. exists []. rewrite app_nil_r.
  rewrite lookup_insert_ne; [done|]. intros Heq. rewrite <- Heq in H. congruence.
Qed.

(** An interaction in which the Clear Chat History button is not pressed
    keeps every stored transcript as a prefix of what it leaves. *)
Lemma rerun_extends w i rt :
  clear_clicked i = false -> extends rt (snd (rerun w i rt)).
Proof.
  intros Hclear.
  apply (preserved_rerun extends (fun _ => True)); try done.
  - apply extends_refl.
  - apply extends_trans.
  - intros rt0 dc tr id t H. exists []. by rewrite app_nil_r.
  - apply extends_set.
  - apply extends_append.
  - apply extends_init.
  - congruence.
Qed.

Lemma run_all_extends runs rt :
  Forall (fun r => clear_clicked (snd r) = false) runs ->
  extends rt (run_all runs rt).
Proof.
  intros Hruns. revert rt.
  induction Hruns as [|[w i] runs Hi _ IH]; intros rt; simpl.
  - apply extends_refl.
  - eapply extends_trans; [|apply IH]. by apply rerun_extends.
Qed.

(** ** The trace only grows, and only the guard stops the script *)

Lemma continues_refl rt : continues rt rt.
Proof. exists []. by rewrite app_nil_r. Qed.

Lemma continues_trans rt1 rt2 rt3 :
  continues rt1 rt2 -> continues rt2 rt3 -> continues rt1 rt3.
Proof.
  intros [r1 H1] [r2 H2]. exists (r1 ++ r2)%list. by rewrite H2, H1, app_assoc.
Qed.

Lemma continues_same_trace rt rt' : trace rt' = trace rt -> continues rt rt'.
Proof. intros H. exists []. by rewrite H, app_nil_r. Qed.

Lemma clear_chat_history_continues id :
  preserved continues (fun x => x <> StopException) (clear_chat_history id).
Proof.
  intros rt. split; [by apply continues_same_trace | by intros ? [= <-]].
Qed.

Lemma after_selection_continues w i ms id :
  preserved continues (fun x => x <> StopException) (after_selection w i ms id).
Proof.
  apply preserved_after_selection; try done.
  - apply continues_refl.
  - apply continues_trans.
  - intros rt dc tr. by exists tr.
  - intros. by apply continues_same_trace.
  - intros. by apply continues_same_trace.
  - intros. apply clear_chat_history_continues.
Qed.

(** What follows the rendering of the model selector. *)
Lemma after_selectbox_continues w i ms :
  preserved continues (fun x => x <> StopException)
    (let* selected_display_name :=
       widget_value (dict_keys (model_options_of ms)) selected_model_key in
     let* selected_model_id :=
       match selected_display_name with
       | Some d => dict_lookup (model_options_of ms) d
       | None => raise (KeyError "None")
       end in
     after_selection w i ms selected_model_id).
Proof.
  assert (Hlog : forall rt dc tr,
            continues rt {| session_state := session_state rt; data_cache := dc;
                            trace := trace rt ++ tr |})
    by (intros rt dc tr; by exists tr).
  apply preserved_bind;
    try (apply continues_refl || apply continues_trans || apply Hlog).
  - apply preserved_widget_value; try done;
      try (apply continues_refl || apply continues_trans).
    intros. by apply continues_same_trace.
  - intros sel. apply preserved_bind;
      try (apply continues_refl || apply continues_trans || apply Hlog).
    + destruct sel.
      * apply preserved_dict_lookup; [apply continues_refl | done].
      * apply preserved_raise; [apply continues_refl | done].
    + intros id. apply after_selection_continues.
Qed.

(** ** The chat turn: the claims *)

(** C2. For a selected model whose provider resolves and whose transcript
    exists, submitting a non-empty text runs the chat turn to its end and
    lengthens that model's transcript by exactly two messages: the user's
    message followed by one assistant message, which holds the accumulated
    reply when the request and the stream succeed and the text
    "An error occurred: <error>" when either raises.  No other entry of the
    session state changes, so no other model's transcript does. *)
Theorem chat_turn_appends_two (w : world) (ms : pydict model_info)
    (id : string) (info : model_info) (cfg : provider_config)
    (prompt : string) (t : list message) (rt : runtime) :
  dict_get ms id = Some info ->
  dict_get PROVIDERS (m_provider info) = Some cfg ->
  session_state rt !! messages_key id = Some (VMessages t) ->
  prompt <> "" ->
  let user := {| role := "user"; content := prompt |} in
  let r := chat_completions_create w (p_url cfg) (p_api_key cfg)
             (request_of id (t ++ [user])) in
  exists rt' reply,
    chat_input_handler w ms id (Some prompt) rt = (Ret tt, rt') /\
    session_state rt' !! messages_key id = Some (VMessages (t ++ [user; reply])) /\
    length (t ++ [user; reply]) = length t + 2 /\
    (resp_failure r = None ->
       reply = {| role := "assistant"; content := accumulated (resp_yielded r) |}) /\
    (forall e, resp_failure r = Some e ->
       reply = {| role := "assistant"; content := "An error occurred: " +:+ e |}) /\
    (forall k, k <> messages_key id ->
       session_state rt' !! k = session_state rt !! k) /\
    (forall id', id' <> id ->
       session_state rt' !! messages_key id' = session_state rt !! messages_key id').
Proof.
  intros Hget Hcfg Ht Hprompt user r.
  eexists _, (reply_of r). split.
  { unfold chat_input_handler.
    rewrite (bind_Ret _ _ _ _ _ (emit_run _ _)).
    destruct (String.eqb_spec prompt "") as [Hempty|_]; [by destruct Hprompt|].
    match goal with |- chat_turn _ _ _ _ ?s = _ => set (rt0 := s) end.
    exact (chat_turn_run w ms id prompt info cfg t rt0 Hget Hcfg Ht). }
  cbn [session_state].
  split; [apply lookup_insert_eq|].
  split; [rewrite length_app; simpl; lia|].
  split; [by unfold reply_of; intros ->|].
  split; [by unfold reply_of; intros e ->|].
  split.
  - intros k Hk. by apply lookup_insert_ne.
  - intros id' Hne. apply lookup_insert_ne. by apply messages_key_ne.
Qed.

(** The streaming scenario of the specification: the fragments "Hi",
    " there" and "!" end up as one assistant message "Hi there!". *)
Lemma chat_turn_appends_two_witness :
  exists rt',
    chat_input_handler w_docker_only ms_modelA "modelA" (Some "hello") rt_modelA
      = (Ret tt, rt') /\
    session_state rt' !! messages_key "modelA" =
      Some (VMessages [{| role := "user"; content := "hello" |};
                       {| role := "assistant"; content := "Hi there!" |}]).
Proof.
  destruct (chat_turn_appends_two w_docker_only ms_modelA "modelA" _ _ "hello" []
              rt_modelA eq_refl eq_refl eq_refl ltac:(discriminate))
    as (rt' & reply & Hrun & Hss & _ & Hok & _).
  exists rt'. split; [exact Hrun|].
  rewrite Hss, (Hok eq_refl). reflexivity.
Defined.

(** C9. The completion request of a chat turn is made by one call of
    [client.chat.completions.create].  It goes to the base URL and with the
    API key of the provider that owns the selected model; its model is the
    selected id, streaming is on, and its messages are the role/content
    pairs of the whole transcript in order, ending with the user message
    that was just appended.  What follows the call in the trace is only
    what the reply shows. *)
Theorem chat_turn_request (w : world) (ms : pydict model_info)
    (id : string) (info : model_info) (cfg : provider_config)
    (prompt : string) (t : list message) (rt : runtime) :
  dict_get ms id = Some info ->
  dict_get PROVIDERS (m_provider info) = Some cfg ->
  session_state rt !! messages_key id = Some (VMessages t) ->
  exists rt' shown,
    chat_turn w ms id prompt rt = (Ret tt, rt') /\
    trace rt' =
      (trace rt
        ++ [ChatMessage "user"; Markdown prompt; ChatMessage "assistant";
            ChatCompletionsCall (p_url cfg) (p_api_key cfg)
              {| req_model := id;
                 req_messages :=
                   map (fun m => (role m, content m))
                     (t ++ [{| role := "user"; content := prompt |}]);
                 req_stream := true |}]
        ++ shown)%list /\
    Forall (fun ev => match ev with
                      | StreamChunk _ | Error _ => True
                      | _ => False
                      end) shown.
Proof.
  intros Hget Hcfg Ht.
  eexists _, _. split; [exact (chat_turn_run w ms id prompt info cfg t rt Hget Hcfg Ht)|].
  split; [reflexivity|].
  unfold reply_events. apply Forall_app. split.
  - apply Forall_forall. intros ev Hev.
    apply list_elem_of_fmap in Hev as (chunk & -> & _). done.
  - destruct (resp_failure _); [by apply Forall_singleton | apply Forall_nil_2].
Qed.

(** The request of the first turn with [modelA]: one message, sent to
    Docker's endpoint. *)
Lemma chat_turn_request_witness :
  exists rt' shown,
    chat_turn w_docker_only ms_modelA "modelA" "hello" rt_modelA = (Ret tt, rt') /\
    trace rt' =
      ([ChatMessage "user"; Markdown "hello"; ChatMessage "assistant";
        ChatCompletionsCall "http://localhost:12434/engines/v1" "unused"
          {| req_model := "modelA";
             req_messages := [("user", "hello")];
             req_stream := true |}] ++ shown)%list.
Proof.
  destruct (chat_turn_request w_docker_only ms_modelA "modelA" _ _ "hello" []
              rt_modelA eq_refl eq_refl eq_refl)
    as (rt' & shown & Hrun & Htrace & _).
  exists rt', shown. split; [exact Hrun | exact Htrace].
Defined.

(** Clear Chat History empties a transcript whatever it holds: the message
    left by a completion that timed out goes with the rest, as a genuine
    reply would. *)
Example error_message_cleared :
  let rt1 := snd (script w_timeout says_hello fresh) in
  let rt2 := snd (script w_timeout presses_clear rt1) in
  session_state rt1 !! messages_key "modelA" =
    Some (VMessages [{| role := "user"; content := "hello" |};
                     {| role := "assistant";
                        content := "An error occurred: Request timed out." |}]) /\
  session_state rt2 !! messages_key "modelA" = Some (VMessages []).
Proof. vm_compute. split; reflexivity. Qed.

(** C5. When the completion request or the consumption of its stream
    raises [e], the chat turn appends, after the user's message, a message
    with role assistant and content "An error occurred: e", and the last
    element it renders is that error.  The session state it leaves is the
    one a successful reply with this very text would leave: the message is
    stored like any assistant reply.  It is a permanent part of the
    transcript: it is not retried or rewritten, and it stays at its place
    through every later interaction, whichever model is selected and
    whatever the providers answer, for as long as the user does not empty
    the transcript with Clear Chat History. *)
Theorem completion_error_recorded (w : world) (ms : pydict model_info)
    (id : string) (info : model_info) (cfg : provider_config)
    (prompt : string) (t : list message) (rt : runtime) (e : string) :
  dict_get ms id = Some info ->
  dict_get PROVIDERS (m_provider info) = Some cfg ->
  session_state rt !! messages_key id = Some (VMessages t) ->
  let user := {| role := "user"; content := prompt |} in
  let failed := {| role := "assistant"; content := "An error occurred: " +:+ e |} in
  let req := request_of id (t ++ [user]) in
  resp_failure (chat_completions_create w (p_url cfg) (p_api_key cfg) req) = Some e ->
  exists rt',
    chat_turn w ms id prompt rt = (Ret tt, rt') /\
    session_state rt' !! messages_key id = Some (VMessages (t ++ [user; failed])) /\
    last (trace rt') = Some (Error ("An error occurred: " +:+ e)) /\
    (forall w',
       chat_completions_create w' (p_url cfg) (p_api_key cfg) req
         = CallReturns (IterNext ("An error occurred: " +:+ e) IterEnd) ->
       session_state (snd (chat_turn w' ms id prompt rt)) = session_state rt') /\
    (forall runs,
       Forall (fun r => clear_clicked (snd r) = false) runs ->
       exists t',
         session_state (run_all runs rt') !! messages_key id
           = Some (VMessages ((t ++ [user; failed]) ++ t'))).
Proof.
  intros Hget Hcfg Ht user failed req Hfail.
  pose proof (chat_turn_run w ms id prompt info cfg t rt Hget Hcfg Ht) as Hrun.
  cbv zeta in Hrun. fold user req in Hrun.
  assert (Hreply : reply_of (chat_completions_create w (p_url cfg) (p_api_key cfg) req)
                   = failed) by (unfold reply_of; by rewrite Hfail).
  rewrite Hreply in Hrun.
  eexists. split; [exact Hrun|]. cbn [session_state trace].
  assert (Hstored :
    (<[messages_key id := VMessages (t ++ [user; failed])]> (session_state rt))
      !! messages_key id = Some (VMessages (t ++ [user; failed])))
    by apply lookup_insert_eq.
  split; [exact Hstored|]. split; [|split].
  - unfold reply_events. rewrite Hfail, !app_assoc. apply last_snoc.
  - intros w' Hw'.
    rewrite (chat_turn_run w' ms id prompt info cfg t rt Hget Hcfg Ht).
    cbn [snd session_state]. fold user req. rewrite Hw'.
    unfold reply_of. simpl. by rewrite string_app_nil_r.
  - intros runs Hruns. by apply (run_all_extends runs _ Hruns).
Qed.

(** The timeout scenario of the specification. *)
Lemma completion_error_recorded_witness :
  exists rt',
    chat_turn w_timeout ms_modelA "modelA" "hello" rt_modelA = (Ret tt, rt') /\
    session_state rt' !! messages_key "modelA" =
      Some (VMessages [{| role := "user"; content := "hello" |};
                       {| role := "assistant";
                          content := "An error occurred: Request timed out." |}]) /\
    last (trace rt') = Some (Error "An error occurred: Request timed out.").
Proof.
  destruct (completion_error_recorded w_timeout ms_modelA "modelA" _ _ "hello" []
              rt_modelA "Request timed out." eq_refl eq_refl eq_refl eq_refl)
    as (rt' & Hrun & Hss & Hlast & _).
  exists rt'. split; [exact Hrun|]. split; [exact Hss | exact Hlast].
Defined.

(** ** Memoised discovery, clearing and the no-models guard *)

Lemma ss_contains_run key rt :
  ss_contains key rt =
  (Ret (match session_state rt !! key with Some _ => true | None => false end), rt).
Proof. reflexivity. Qed.

Lemma init_discovery_loaded w rt :
  is_Some (session_state rt !! "models") -> init_discovery w rt = (Ret tt, rt).
Proof.
  intros [v Hv]. unfold init_discovery.
  rewrite (bind_Ret _ _ _ _ _ (ss_contains_run _ _)). by rewrite Hv.
Qed.

Lemma discover_models_cached_run w rt :
  discover_models_cached w rt =
  match data_cache rt with
  | Some r => (Ret r, rt)
  | None =>
      (Ret (merged w PROVIDERS [], flat_map (error_of w) PROVIDERS),
       {| session_state := session_state rt;
          data_cache := Some (merged w PROVIDERS [], flat_map (error_of w) PROVIDERS);
          trace := trace rt
            ++ map (fun p => ModelsListCall (p_url (snd p)) (p_api_key (snd p)))
                 PROVIDERS |})
  end.
Proof.
  unfold discover_models_cached. destruct (data_cache rt); [done|].
  by rewrite discover_models_run.
Qed.

(** The first load of a session always succeeds and stores both entries. *)
Lemma init_discovery_run w rt :
  exists rt1,
    init_discovery w rt = (Ret tt, rt1) /\
    is_Some (session_state rt1 !! "models") /\
    (session_state rt !! "models" = None ->
     exists r, session_state rt1 !! "models" = Some (VModels (fst r)) /\
               session_state rt1 !! "errors" = Some (VErrors (snd r)) /\
               (data_cache rt = None -> fst (discover_models w) = Ret r)).
Proof.
  destruct (session_state rt !! "models") as [v|] eqn:Hv.
  - exists rt. rewrite init_discovery_loaded by eauto. by rewrite Hv.
  - unfold init_discovery.
    rewrite (bind_Ret _ _ _ _ _ (ss_contains_run _ _)), Hv.
    rewrite (bind_Ret _ _ _ _ _ (emit_run _ _)).
    unfold bind at 1. rewrite discover_models_cached_run. cbn [data_cache].
    destruct (data_cache rt) as [r|] eqn:Hc.
    + rewrite (bind_Ret _ _ _ _ _ (ss_set_run _ _ _)). rewrite ss_set_run.
      eexists. split; [done|]. cbn [session_state].
      rewrite lookup_insert_ne by done. rewrite lookup_insert_eq.
      split; [by eauto|]. intros _. exists r.
      split; [done|]. split; [apply lookup_insert_eq | done].
    + rewrite (bind_Ret _ _ _ _ _ (ss_set_run _ _ _)). rewrite ss_set_run.
      eexists. split; [done|]. cbn [session_state].
      rewrite lookup_insert_ne by done. rewrite lookup_insert_eq.
      split; [by eauto|]. intros _. eexists.
      split; [done|]. split; [apply lookup_insert_eq|].
      intros _. by rewrite discover_models_run.
Qed.

(** C6. Discovery is memoised.  Called twice, the cached [discover_models]
    gives the same result both times, and the second call leaves the
    runtime as it found it: no request is added to the trace, whatever the
    providers would answer by then.  The same holds one level up for the
    load of lines 50-52: once a session holds its models, a later run
    performs no discovery and changes nothing. *)
Theorem discovery_memoized (w1 w2 : world) (rt : runtime) :
  (exists r rt1,
     discover_models_cached w1 rt = (Ret r, rt1) /\
     discover_models_cached w2 rt1 = (Ret r, rt1) /\
     (data_cache rt = None -> fst (discover_models w1) = Ret r)) /\
  (exists rt1,
     init_discovery w1 rt = (Ret tt, rt1) /\
     init_discovery w2 rt1 = (Ret tt, rt1)).
Proof.
  split.
  - rewrite discover_models_cached_run.
    destruct (data_cache rt) as [r|] eqn:Hc.
    + exists r, rt. rewrite discover_models_cached_run, Hc. done.
    + eexists _, _. split; [done|]. split; [done|].
      intros _. by rewrite discover_models_run.
  - destruct (init_discovery_run w1 rt) as (rt1 & Hrun & Hloaded & _).
    exists rt1. split; [done|]. by apply init_discovery_loaded.
Qed.

(** Nothing is reachable at the first call and Docker is up at the second:
    the second call still returns the first result. *)
Lemma discovery_memoized_witness :
  exists r rt1,
    discover_models_cached w_down fresh = (Ret r, rt1) /\
    discover_models_cached w_docker_only rt1 = (Ret r, rt1) /\
    fst (discover_models w_down) = Ret r.
Proof.
  destruct (discovery_memoized w_down w_docker_only fresh)
    as [(r & rt1 & Hfirst & Hsecond & Hfresh) _].
  exists r, rt1. split; [exact Hfirst|]. split; [exact Hsecond|].
  exact (Hfresh eq_refl).
Defined.

(** A provider that comes up after the first load is not seen. *)
Example discovery_not_repeated :
  let rt1 := snd (discover_models_cached w_down fresh) in
  discover_models_cached w_docker_only rt1 =
  (Ret ([], ["Could not connect to Ollama at http://localhost:11434/v1: Connection error.";
             "Could not connect to Docker at http://localhost:12434/engines/v1: Connection error."]),
   rt1).
Proof. reflexivity. Qed.

(** C7. Clearing the chat history of model [m] stores the empty transcript
    for [m] and asks for a rerun; every other entry of the session state is
    left as it was, in particular the transcript of every other model, the
    discovered models and the discovery errors; the cache is untouched. *)
Theorem clear_resets_only_selected (m : string) (rt : runtime) :
  exists rt',
    clear_chat_history m rt = (Raise RerunException, rt') /\
    session_state rt' !! messages_key m = Some (VMessages []) /\
    (forall m', m' <> m ->
       session_state rt' !! messages_key m' = session_state rt !! messages_key m') /\
    session_state rt' !! "models" = session_state rt !! "models" /\
    session_state rt' !! "errors" = session_state rt !! "errors" /\
    (forall k, k <> messages_key m -> session_state rt' !! k = session_state rt !! k) /\
    data_cache rt' = data_cache rt.
Proof.
  eexists. split; [reflexivity|]. cbn [session_state data_cache].
  split; [apply lookup_insert_eq|].
  split; [intros m' Hne; apply lookup_insert_ne; by apply messages_key_ne|].
  split; [apply lookup_insert_ne; intros H; by apply (models_not_messages m)|].
  split; [apply lookup_insert_ne; intros H; by apply (errors_not_messages m)|].
  split; [|done]. intros k Hk. by apply lookup_insert_ne.
Qed.

(** Clearing [modelA] where two models have a transcript. *)
Lemma clear_resets_only_selected_witness :
  exists rt',
    clear_chat_history "modelA" rt_two = (Raise RerunException, rt') /\
    session_state rt' !! messages_key "modelA" = Some (VMessages []) /\
    session_state rt' !! messages_key "modelB" =
      Some (VMessages [{| role := "user"; content := "hi B" |}]).
Proof.
  destruct (clear_resets_only_selected "modelA" rt_two)
    as (rt' & Hrun & Hcleared & Hothers & _).
  exists rt'. split; [exact Hrun|]. split; [exact Hcleared|].
  by rewrite (Hothers "modelB" ltac:(discriminate)).
Defined.

(** Through the whole script: after a chat with [modelA], pressing the
    button empties its transcript and keeps models and errors. *)
Example clear_through_script :
  let rt1 := snd (script w_docker_only says_hello fresh) in
  let '(o, rt2) := script w_docker_only presses_clear rt1 in
  o = Raise RerunException /\
  session_state rt2 !! messages_key "modelA" = Some (VMessages []) /\
  session_state rt2 !! "models" = Some (VModels ms_modelA) /\
  session_state rt2 !! "errors" = session_state rt1 !! "errors".
Proof. vm_compute. repeat split. Qed.

Lemma for_each_emit_run {A} (f : A -> event) (xs : list A) rt :
  for_each xs (fun x => emit (f x)) rt =
  (Ret tt, {| session_state := session_state rt;
              data_cache := data_cache rt;
              trace := trace rt ++ map f xs |}).
Proof.
  revert rt. induction xs as [|x xs IH]; intros [ss dc tr]; simpl.
  - unfold ret. by rewrite app_nil_r.
  - rewrite (bind_Ret _ _ _ _ _ (emit_run _ _)), IH. simpl.
    by rewrite <- app_assoc.
Qed.

Lemma show_errors_run es rt :
  session_state rt !! "errors" = Some (VErrors es) ->
  show_errors rt =
  (Ret tt, {| session_state := session_state rt;
              data_cache := data_cache rt;
              trace := trace rt ++ map Warning es |}).
Proof.
  intros H. unfold show_errors, ss_get_errors.
  rewrite (bind_Ret _ _ rt es rt).
  - apply for_each_emit_run.
  - rewrite (bind_Ret _ _ rt rt rt) by done. by rewrite H.
Qed.

(** [show_errors] returns only when the errors are stored as a list, and it
    leaves the session state alone. *)
Lemma show_errors_Ret rt rt1 :
  show_errors rt = (Ret tt, rt1) ->
  session_state rt1 = session_state rt /\
  exists es, session_state rt !! "errors" = Some (VErrors es).
Proof.
  destruct (session_state rt !! "errors") as [[| es | |]|] eqn:E;
    try (unfold show_errors, ss_get_errors, bind, get; rewrite E; discriminate).
  rewrite (show_errors_run es) by done. intros [= <-]. eauto.
Qed.

Lemma startup_Ret w rt rt1 :
  startup w rt = (Ret tt, rt1) ->
  exists es, session_state rt1 !! "errors" = Some (VErrors es).
Proof.
  unfold startup. do 3 rewrite (bind_Ret _ _ _ _ _ (emit_run _ _)).
  match goal with |- bind _ _ ?s = _ -> _ =>
    destruct (init_discovery_run w s) as (rt0 & Hinit & _) end.
  rewrite (bind_Ret _ _ _ _ _ Hinit). intros Hshow.
  apply show_errors_Ret in Hshow as (Heq & es & Hes).
  exists es. by rewrite Heq.
Qed.

(** A later run of the lines above the guard, in a session that already
    holds its models and errors. *)
Lemma startup_loaded w rt v es :
  session_state rt !! "models" = Some v ->
  session_state rt !! "errors" = Some (VErrors es) ->
  exists rt1,
    startup w rt = (Ret tt, rt1) /\
    session_state rt1 = session_state rt /\
    data_cache rt1 = data_cache rt.
Proof.
  intros Hm He. unfold startup.
  do 3 rewrite (bind_Ret _ _ _ _ _ (emit_run _ _)).
  match goal with |- context [bind _ _ ?s] =>
    assert (Hs : is_Some (session_state s !! "models")) by (by exists v);
    rewrite (bind_Ret _ _ _ _ _ (init_discovery_loaded w s Hs))
  end.
  rewrite (show_errors_run es) by done. by eexists.
Qed.

Lemma user_picks_run i rt :
  exists rt0,
    user_picks i rt = (Ret tt, rt0) /\
    session_state rt0 !! "models" = session_state rt !! "models" /\
    session_state rt0 !! "errors" = session_state rt !! "errors".
Proof.
  unfold user_picks. destruct (picked i); [|by exists rt].
  eexists. split; [reflexivity|]. cbn [session_state].
  by rewrite !lookup_insert_ne.
Qed.

Lemma ss_get_models_run ms rt :
  session_state rt !! "models" = Some (VModels ms) ->
  ss_get_models rt = (Ret ms, rt).
Proof.
  intros H. unfold ss_get_models. rewrite (bind_Ret _ _ rt rt rt) by done.
  by rewrite H.
Qed.

Lemma no_models_guard_stops rt :
  session_state rt !! "models" = Some (VModels []) ->
  no_models_guard rt =
  (Raise StopException,
   {| session_state := session_state rt;
      data_cache := data_cache rt;
      trace := trace rt ++ [Error no_models_message] |}).
Proof.
  intros H. unfold no_models_guard.
  by rewrite (bind_Ret _ _ _ _ _ (ss_get_models_run _ _ H)).
Qed.

Lemma no_models_guard_passes ms rt :
  session_state rt !! "models" = Some (VModels ms) -> ms <> [] ->
  no_models_guard rt = (Ret tt, rt).
Proof.
  intros H Hne. unfold no_models_guard.
  rewrite (bind_Ret _ _ _ _ _ (ss_get_models_run _ _ H)). by destruct ms.
Qed.

Lemma bind_assoc {S A B C} (c : M S A) (k : A -> M S B) (k' : B -> M S C) s :
  bind (bind c k) k' s = bind c (fun a => bind (k a) k') s.
Proof. unfold bind. by destruct (c s) as [[a|x] s']. Qed.

Lemma dict_set_not_nil {V} (d : pydict V) k v : dict_set d k v <> [].
Proof. destruct d as [|[k' v'] d]; simpl; [done|]. by destruct (String.eqb k' k). Qed.

Lemma model_options_not_nil ms : ms <> [] -> dict_keys (model_options_of ms) <> [].
Proof.
  unfold model_options_of.
  destruct ms as [|kv ms _] using rev_ind; [done|]. intros _.
  rewrite fold_left_app. simpl. unfold dict_keys. intros H.
  apply fmap_nil_inv in H. by apply dict_set_not_nil in H.
Qed.

(** C8. Once the lines above the guard have run, an empty models mapping
    halts the script: the "no models found" error is the last thing
    rendered, the run ends in [st.stop()], and nothing below the guard has
    touched the trace or the session state.  The state is final for the
    session: every later run halts at the same place.  With at least one
    model the guard lets the run through: it does not end in [st.stop()],
    and the sidebar header and the model selector, with at least one
    option, are rendered next. *)
Theorem no_models_halts (w : world) (i : inputs) (rt rt1 : runtime)
    (ms : pydict model_info) :
  startup w rt = (Ret tt, rt1) ->
  session_state rt1 !! "models" = Some (VModels ms) ->
  let halted := {| session_state := session_state rt1;
                   data_cache := data_cache rt1;
                   trace := trace rt1 ++ [Error no_models_message] |} in
  (ms = [] ->
     script w i rt = (Raise StopException, halted) /\
     forall w' i', exists rt2,
       rerun w' i' halted = (Raise StopException, rt2) /\
       session_state rt2 !! "models" = Some (VModels []) /\
       last (trace rt2) = Some (Error no_models_message)) /\
  (ms <> [] ->
     exists o rt2 rest,
       script w i rt = (o, rt2) /\
       o <> Raise StopException /\
       dict_keys (model_options_of ms) <> [] /\
       trace rt2 =
         (trace rt1
            ++ Header "Configuration"
            :: Selectbox "Select a Model:" (dict_keys (model_options_of ms))
                 selected_model_key
            :: rest)%list).
Proof.
  intros Hstart Hms halted. split.
  - intros ->. split.
    + unfold script. rewrite (bind_Ret _ _ _ _ _ Hstart).
      by rewrite (bind_Raise _ _ _ _ _ (no_models_guard_stops rt1 Hms)).
    + intros w' i'. destruct (startup_Ret w rt rt1 Hstart) as [es Hes].
      destruct (user_picks_run i' halted) as (rt0 & Hpick & Hms0 & Hes0).
      unfold halted in Hms0, Hes0. cbn [session_state] in Hms0, Hes0.
      rewrite Hms in Hms0. rewrite Hes in Hes0.
      destruct (startup_loaded w' rt0 _ es Hms0 Hes0) as (rt1' & Hstart' & Hss & _).
      assert (Hms' : session_state rt1' !! "models" = Some (VModels []))
        by (by rewrite Hss).
      eexists. split.
      { unfold rerun, script. rewrite (bind_Ret _ _ _ _ _ Hpick).
        rewrite (bind_Ret _ _ _ _ _ Hstart').
        by rewrite (bind_Raise _ _ _ _ _ (no_models_guard_stops rt1' Hms')). }
      split; [done | apply last_snoc].
  - intros Hne. unfold script. rewrite (bind_Ret _ _ _ _ _ Hstart).
    rewrite (bind_Ret _ _ _ _ _ (no_models_guard_passes ms rt1 Hms Hne)).
    unfold main_ui. rewrite (bind_Ret _ _ _ _ _ (ss_get_models_run ms rt1 Hms)).
    cbv zeta. rewrite (bind_Ret _ _ _ _ _ (emit_run _ _)).
    unfold selectbox. rewrite bind_assoc.
    rewrite (bind_Ret _ _ _ _ _ (emit_run _ _)). cbn [session_state data_cache trace].
    match goal with |- context [bind ?c ?k ?s] =>
      destruct (after_selectbox_continues w i ms s) as [[rest Hrest] Hstop];
      destruct (bind c k s) as [o rt2] eqn:Hrun
    end.
    exists o, rt2, rest. split; [done|].
    split; [intros ->; by apply (Hstop StopException)|].
    split; [by apply model_options_not_nil|].
    simpl in Hrest. rewrite Hrest. by rewrite <- !app_assoc.
Qed.

(** The scenario of the specification: both providers unreachable. *)
Lemma no_models_halts_witness :
  exists rt1 halted,
    startup w_down fresh = (Ret tt, rt1) /\
    script w_down says_hello fresh = (Raise StopException, halted) /\
    session_state halted !! "models" = Some (VModels []) /\
    last (trace halted) = Some (Error no_models_message) /\
    exists rt2, rerun w_docker_only says_hello halted = (Raise StopException, rt2).
Proof.
  destruct (startup w_down fresh) as [o rt1] eqn:Hstart.
  assert (Ho : o = Ret tt) by (by vm_compute in Hstart; injection Hstart as <- _).
  subst o.
  assert (Hms : session_state rt1 !! "models" = Some (VModels []))
    by (by vm_compute in Hstart; injection Hstart as <-).
  destruct (no_models_halts w_down says_hello fresh rt1 [] Hstart Hms)
    as [Hhalt _].
  destruct (Hhalt eq_refl) as [Hrun Hlater].
  destruct (Hlater w_docker_only says_hello) as (rt2 & Hrun2 & _).
  eexists rt1, _. split; [done|]. split; [exact Hrun|].
  split; [exact Hms|]. split; [apply last_snoc|].
  by exists rt2.
Defined.

(** A first run that finds a model renders the selector and the chat. *)
Example first_run_with_a_model :
  trace (snd (script w_docker_only says_hello fresh)) =
  [PageConfig "LLM Chat Interface" "wide"; Title "🤖 Unified LLM Chat";
   Write "Select a model from any running provider to start chatting.";
   Spinner "Discovering local models...";
   ModelsListCall "http://localhost:11434/v1" "ollama";
   ModelsListCall "http://localhost:12434/engines/v1" "unused";
   Warning "Could not connect to Ollama at http://localhost:11434/v1: Connection error.";
   Header "Configuration";
   Selectbox "Select a Model:" ["modelA (Docker)"] "selected_model_display_name";
   Button "Clear Chat History";
   ChatInput "Message modelA...";
   ChatMessage "user"; Markdown "hello"; ChatMessage "assistant";
   ChatCompletionsCall "http://localhost:12434/engines/v1" "unused"
     {| req_model := "modelA"; req_messages := [("user", "hello")];
        req_stream := true |};
   StreamChunk "Hi"; StreamChunk " there"; StreamChunk "!"].
Proof. vm_compute. reflexivity. Qed.

(** ** From the selector to the chat turn *)

Lemma widget_value_run (options : list string) key rt :
  options <> [] ->
  exists s,
    s ∈ options /\
    widget_value options key rt =
    (Ret (Some s), {| session_state := <[key := VStr s]> (session_state rt);
                      data_cache := data_cache rt;
                      trace := trace rt |}).
Proof.
  intros Hne. destruct options as [|s0 options]; [done|].
  assert (Hin0 : s0 ∈ s0 :: options) by apply list_elem_of_here.
  unfold widget_value. rewrite (bind_Ret _ _ rt rt rt) by done. cbv zeta.
  destruct (session_state rt !! key) as [[| | |s]|];
    try (exists s0; split; [done|]; reflexivity).
  destruct (bool_decide (s ∈ s0 :: options)) eqn:E.
  - apply bool_decide_eq_true_1 in E. exists s. split; [done|]. reflexivity.
  - exists s0. split; [done|]. reflexivity.
Qed.

(** Every option of the selector leads back to a key of the models. *)
Lemma model_options_get ms d :
  d ∈ dict_keys (model_options_of ms) ->
  exists id info,
    dict_get (model_options_of ms) d = Some id /\ dict_get ms id = Some info.
Proof.
  intros Hd. apply dict_get_keys in Hd as [id Hid]. exists id.
  cut (id ∈ dict_keys ms).
  { intros Hin. apply dict_get_keys in Hin as [info Hinfo]. by exists info. }
  revert Hid. unfold model_options_of.
  induction ms as [|[k v] ms IH] using rev_ind; [done|].
  rewrite fold_left_app. simpl. intros Hid.
  unfold dict_keys. rewrite fmap_app. apply elem_of_app.
  destruct (decide (m_display_name v = d)) as [<-|Hne].
  - rewrite dict_get_set_eq in Hid. injection Hid as <-.
    right. apply list_elem_of_here.
  - rewrite dict_get_set_ne in Hid by done. left. by apply IH.
Qed.

Lemma show_transcript_run id t rt :
  session_state rt !! messages_key id = Some (VMessages t) ->
  exists rt',
    show_transcript id rt = (Ret tt, rt') /\
    session_state rt' = session_state rt.
Proof.
  intros Ht. unfold show_transcript.
  rewrite (bind_Ret _ _ _ _ _ (ss_get_messages_run id t rt Ht)).
  generalize rt. clear. induction t as [|m t IH]; intros rt; simpl.
  - by exists rt.
  - rewrite bind_assoc. do 2 rewrite (bind_Ret _ _ _ _ _ (emit_run _ _)).
    match goal with |- context [for_each _ _ ?s] => destruct (IH s) as (rt' & -> & Hss) end.
    by exists rt'.
Qed.

(** The script as a whole, when the user submits a text: it selects a
    discovered model, creates its transcript if there is none, and runs the
    chat turn on it; the transcripts of the other models stay as they are. *)
Lemma script_chat_turn w i rt rt1 ms prompt :
  startup w rt = (Ret tt, rt1) ->
  session_state rt1 !! "models" = Some (VModels ms) ->
  ms <> [] ->
  (forall id info, dict_get ms id = Some info ->
     is_Some (dict_get PROVIDERS (m_provider info))) ->
  (forall id v, session_state rt1 !! messages_key id = Some v ->
     exists t, v = VMessages t) ->
  clear_clicked i = false ->
  submitted i = Some prompt ->
  prompt <> "" ->
  exists id info t reply rt2,
    dict_get ms id = Some info /\
    script w i rt = (Ret tt, rt2) /\
    (session_state rt1 !! messages_key id = Some (VMessages t) \/
     session_state rt1 !! messages_key id = None /\ t = []) /\
    session_state rt2 !! messages_key id =
      Some (VMessages (t ++ [{| role := "user"; content := prompt |}; reply])) /\
    role reply = "assistant" /\
    (forall id', id' <> id ->
       session_state rt2 !! messages_key id' = session_state rt1 !! messages_key id').
Proof.
  intros Hstart Hms Hne Hprov Htyped Hclear Hsub Hprompt.
  unfold script. rewrite (bind_Ret _ _ _ _ _ Hstart).
  rewrite (bind_Ret _ _ _ _ _ (no_models_guard_passes ms rt1 Hms Hne)).
  unfold main_ui. rewrite (bind_Ret _ _ _ _ _ (ss_get_models_run ms rt1 Hms)).
  cbv zeta. rewrite (bind_Ret _ _ _ _ _ (emit_run _ _)).
  unfold selectbox. rewrite bind_assoc.
  rewrite (bind_Ret _ _ _ _ _ (emit_run _ _)).
  match goal with |- context [bind (widget_value ?o ?k) _ ?s] =>
    destruct (widget_value_run o k s (model_options_not_nil ms Hne))
      as (d & Hd & Hwidget)
  end.
  rewrite (bind_Ret _ _ _ _ _ Hwidget). cbn [session_state data_cache trace].
  destruct (model_options_get ms d Hd) as (id & info & Hopt & Hinfo).
  unfold dict_lookup at 1. rewrite Hopt.
  match goal with |- context [bind (ret id) _ ?s] =>
    rewrite (bind_Ret _ _ s id s eq_refl); set (rt_sel := s)
  end.
  destruct (Hprov id info Hinfo) as [cfg Hcfg].
  assert (Hsel : forall id', session_state rt_sel !! messages_key id'
                             = session_state rt1 !! messages_key id').
  { intros id'. apply lookup_insert_ne, selected_not_messages. }
  unfold after_selection. rewrite (bind_Ret _ _ _ _ _ (emit_run _ _)).
  rewrite Hclear, Hsub.
  match goal with |- context [bind (ret tt) _ ?s] =>
    rewrite (bind_Ret _ _ s tt s eq_refl); set (rt_btn := s)
  end.
  assert (Hinit : exists t rt_init,
            init_transcript id rt_btn = (Ret tt, rt_init) /\
            session_state rt_init !! messages_key id = Some (VMessages t) /\
            (session_state rt1 !! messages_key id = Some (VMessages t) \/
             session_state rt1 !! messages_key id = None /\ t = []) /\
            (forall id', id' <> id ->
               session_state rt_init !! messages_key id'
               = session_state rt1 !! messages_key id')).
  { unfold init_transcript. rewrite (bind_Ret _ _ _ _ _ (ss_contains_run _ _)).
    change (session_state rt_btn) with (session_state rt_sel). rewrite Hsel.
    destruct (session_state rt1 !! messages_key id) as [v|] eqn:E.
    - destruct (Htyped id v E) as [t ->]. exists t, rt_btn.
      split; [reflexivity|].
      split; [exact (eq_trans (Hsel id) E)|].
      split; [by left|]. intros id' _. exact (Hsel id').
    - eexists [], _. split; [reflexivity|]. cbn [session_state].
      split; [apply lookup_insert_eq|].
      split; [by right|].
      intros id' Hne'. rewrite lookup_insert_ne by by apply messages_key_ne.
      exact (Hsel id'). }
  destruct Hinit as (t & rt_init & Hinit & Ht & Hbefore & Hothers).
  rewrite (bind_Ret _ _ _ _ _ Hinit).
  destruct (show_transcript_run id t rt_init Ht) as (rt_shown & Hshown & Hss).
  rewrite (bind_Ret _ _ _ _ _ Hshown).
  unfold chat_input_handler. rewrite (bind_Ret _ _ _ _ _ (emit_run _ _)).
  destruct (String.eqb_spec prompt "") as [Hempty|_]; [by destruct Hprompt|].
  match goal with |- context [chat_turn _ _ _ _ ?s] => set (rt_in := s) end.
  assert (Ht_in : session_state rt_in !! messages_key id = Some (VMessages t))
    by (subst rt_in; cbn [session_state]; by rewrite Hss).
  rewrite (chat_turn_run w ms id prompt info cfg t rt_in Hinfo Hcfg Ht_in).
  eexists id, info, t, _, _. split; [done|]. split; [reflexivity|].
  split; [done|]. cbn [session_state].
  split; [apply lookup_insert_eq|]. split; [done|].
  intros id' Hne'. rewrite lookup_insert_ne by by apply messages_key_ne.
  subst rt_in. cbn [session_state]. rewrite Hss. by apply Hothers.
Qed.

(** * Further properties of the script *)

(** ** What discovery returns *)

Lemma dict_set_elem_of {V} (d : pydict V) k v kv :
  kv ∈ dict_set d k v -> kv = (k, v) \/ kv ∈ d.
Proof.
  induction d as [|[k0 v0] d IH]; simpl.
  - intros H. apply list_elem_of_singleton in H. by left.
  - destruct (String.eqb_spec k0 k) as [->|Hne]; intros H.
    + apply elem_of_cons in H as [->|H]; [by left|].
      right. by apply list_elem_of_further.
    + apply elem_of_cons in H as [->|H]; [right; apply list_elem_of_here|].
      destruct (IH H) as [->|Hin]; [by left|].
      right. by apply list_elem_of_further.
Qed.

Lemma dict_get_elem_of {V} (d : pydict V) k v : dict_get d k = Some v -> (k, v) ∈ d.
Proof.
  induction d as [|[k0 v0] d IH]; simpl; [done|].
  destruct (String.eqb_spec k0 k) as [->|Hne].
  - intros [= ->]. apply list_elem_of_here.
  - intros H. by apply list_elem_of_further, IH.
Qed.

Lemma insert_ids_elem_of k cfg ids d kv :
  kv ∈ insert_ids k cfg ids d -> snd kv = entry_of k cfg (fst kv) \/ kv ∈ d.
Proof.
  induction ids as [|i ids IH] using rev_ind; [by right|].
  rewrite insert_ids_snoc. intros H.
  apply dict_set_elem_of in H as [->|H]; [by left | by apply IH].
Qed.

(** Every entry of the merged mapping was written for a provider of the
    registry, under the id it is stored at. *)
Lemma merged_elem_of w ps kv :
  kv ∈ merged w ps [] ->
  exists p, p ∈ ps /\ snd kv = entry_of (fst p) (snd p) (fst kv).
Proof.
  assert (Hgen : forall d,
            kv ∈ merged w ps d ->
            (exists p, p ∈ ps /\ snd kv = entry_of (fst p) (snd p) (fst kv)) \/ kv ∈ d).
  { induction ps as [|p ps IH]; intros d H; [by right|].
    unfold merged in *. simpl in H. destruct (IH _ H) as [(q & Hq & Heq)|Hin].
    - left. exists q. split; [by apply list_elem_of_further | done].
    - apply insert_ids_elem_of in Hin as [Heq|Hin]; [|by right].
      left. exists p. split; [apply list_elem_of_here | done]. }
  intros H. destruct (Hgen [] H) as [?|Hnil]; [done|].
  by apply elem_of_nil in Hnil.
Qed.

Lemma providers_lookup p : p ∈ PROVIDERS -> dict_get PROVIDERS (fst p) = Some (snd p).
Proof.
  unfold PROVIDERS. intros H.
  apply elem_of_cons in H as [->|H]; [done|].
  apply elem_of_cons in H as [->|H]; [done|].
  by apply elem_of_nil in H.
Qed.

Lemma exposes_true w id p : exposes w id p = true <-> id ∈ resp_yielded (listing w p).
Proof. unfold exposes. apply bool_decide_eq_true. Qed.

(** X1. The mapping [discover_models] returns holds at most one entry per
    id, and an id is a key exactly when the listing of some provider yields
    it.  The entry stored at an id carries that id as its name, the key of
    a registry provider whose listing yields the id, and the display name
    "<id> (<provider name>)" of that provider. *)
Theorem discovered_exactly_yielded (w : world) :
  exists ms es l,
    discover_models w = (Ret (ms, es), l) /\
    unique_keys ms /\
    (forall id,
       is_Some (dict_get ms id) <->
       exists p, p ∈ PROVIDERS /\ id ∈ resp_yielded (listing w p)) /\
    (forall id info, dict_get ms id = Some info ->
       m_name info = id /\
       exists cfg,
         dict_get PROVIDERS (m_provider info) = Some cfg /\
         id ∈ resp_yielded (listing w (m_provider info, cfg)) /\
         m_display_name info = id +:+ " (" +:+ p_name cfg +:+ ")").
Proof.
  eexists _, _, _. split; [apply discover_models_run|].
  split; [apply merged_unique, unique_keys_nil|]. split.
  - intros id. rewrite merged_get. split.
    + destruct (last_exposing w id PROVIDERS) as [p|] eqn:E; [|by intros [? ?]].
      intros _. apply last_exposing_elem_of in E as [Hp Hexp].
      exists p. split; [done|]. by apply exposes_true.
    + intros (p & Hp & Hid).
      destruct (last_exposing w id PROVIDERS) as [q|] eqn:E; [by eauto|].
      pose proof (last_exposing_None w id PROVIDERS E p Hp) as Hno.
      apply exposes_true in Hid. congruence.
  - intros id info. rewrite merged_get.
    destruct (last_exposing w id PROVIDERS) as [[k cfg]|] eqn:E; [|done].
    intros [= <-]. apply last_exposing_elem_of in E as [Hp Hexp].
    split; [done|]. exists cfg. simpl.
    split; [exact (providers_lookup (k, cfg) Hp)|].
    split; [by apply exposes_true | done].
Qed.

(** In the collision scenario [phi] is listed by Ollama only and is stored
    once, under Ollama. *)
Lemma discovered_exactly_yielded_witness :
  exists ms es l info,
    discover_models w_collision = (Ret (ms, es), l) /\
    dict_get ms "phi" = Some info /\
    m_name info = "phi" /\
    dict_count ms "phi" <= 1.
Proof.
  destruct (discovered_exactly_yielded w_collision)
    as (ms & es & l & Hrun & Huniq & Hkeys & Hentry).
  assert (Hphi : is_Some (dict_get ms "phi")).
  { apply Hkeys.
    exists ("ollama", {| p_name := "Ollama";
                         p_description := "Ollama is an open-source tool for running large language models locally.";
                         p_url := "http://localhost:11434/v1";
                         p_api_key := "ollama" |}).
    split; [apply list_elem_of_here|].
    apply list_elem_of_further, list_elem_of_here. }
  destruct Hphi as [info Hinfo].
  exists ms, es, l, info. split; [exact Hrun|]. split; [exact Hinfo|].
  split; [exact (proj1 (Hentry "phi" info Hinfo)) | exact (Huniq "phi")].
Defined.

(** ** The first run of a session *)

(** The lines above the guard in a session that has just begun: the
    providers are queried once each, the result is stored and cached, and
    the errors are shown. *)
Lemma startup_fresh_run w :
  startup w fresh =
  (Ret tt,
   {| session_state :=
        <["errors" := VErrors (flat_map (error_of w) PROVIDERS)]>
          (<["models" := VModels (merged w PROVIDERS [])]> ∅);
      data_cache := Some (merged w PROVIDERS [], flat_map (error_of w) PROVIDERS);
      trace :=
        [PageConfig "LLM Chat Interface" "wide"; Title "🤖 Unified LLM Chat";
         Write "Select a model from any running provider to start chatting.";
         Spinner "Discovering local models..."]
        ++ map (fun p => ModelsListCall (p_url (snd p)) (p_api_key (snd p))) PROVIDERS
        ++ map Warning (flat_map (error_of w) PROVIDERS) |}).
Proof.
  unfold startup. do 3 rewrite (bind_Ret _ _ _ _ _ (emit_run _ _)).
  unfold init_discovery at 1.
  rewrite bind_assoc, (bind_Ret _ _ _ _ _ (ss_contains_run _ _)).
  cbn [session_state fresh]. rewrite lookup_empty.
  rewrite bind_assoc, (bind_Ret _ _ _ _ _ (emit_run _ _)).
  rewrite bind_assoc. unfold bind at 1. rewrite discover_models_cached_run.
  cbn [data_cache fresh].
  rewrite bind_assoc, (bind_Ret _ _ _ _ _ (ss_set_run _ _ _)).
  rewrite (bind_Ret _ _ _ _ _ (ss_set_run _ _ _)).
  rewrite (show_errors_run (flat_map (error_of w) PROVIDERS))
    by apply lookup_insert_eq.
  reflexivity.
Qed.

(** Past the guard nothing ends the run in [st.stop()]. *)
Lemma script_passes_guard w i rt rt1 ms :
  startup w rt = (Ret tt, rt1) ->
  session_state rt1 !! "models" = Some (VModels ms) ->
  ms <> [] ->
  fst (script w i rt) <> Raise StopException.
Proof.
  intros Hstart Hms Hne. unfold script. rewrite (bind_Ret _ _ _ _ _ Hstart).
  rewrite (bind_Ret _ _ _ _ _ (no_models_guard_passes ms rt1 Hms Hne)).
  unfold main_ui. rewrite (bind_Ret _ _ _ _ _ (ss_get_models_run ms rt1 Hms)).
  cbv zeta. rewrite (bind_Ret _ _ _ _ _ (emit_run _ _)).
  unfold selectbox. rewrite bind_assoc.
  rewrite (bind_Ret _ _ _ _ _ (emit_run _ _)).
  match goal with |- fst (bind ?c ?k ?s) <> _ =>
    destruct (after_selectbox_continues w i ms s) as [_ Hstop]
  end.
  intros Heq. by apply (Hstop StopException).
Qed.

Lemma merged_nil w ps :
  merged w ps [] = [] <-> forall p, p ∈ ps -> resp_yielded (listing w p) = [].
Proof.
  split.
  - intros Hnil p Hp. destruct (resp_yielded (listing w p)) as [|id ids] eqn:E; [done|].
    destruct (exposed_is_discovered w ps p id [] Hp) as [info Hinfo].
    { rewrite E. apply list_elem_of_here. }
    by rewrite Hnil in Hinfo.
  - intros Hall. destruct (merged w ps []) as [|[id info] ms] eqn:E; [done|].
    assert (Hget : dict_get (merged w ps []) id = Some info)
      by (rewrite E; simpl; by rewrite String.eqb_refl).
    rewrite merged_get in Hget.
    destruct (last_exposing w id ps) as [p|] eqn:El; [|done].
    apply last_exposing_elem_of in El as [Hp Hexp].
    apply exposes_true in Hexp. rewrite (Hall p Hp) in Hexp.
    by apply elem_of_nil in Hexp.
Qed.

(** X2. The first run of a session, in a process with an empty cache, ends
    at the no-models guard exactly when no provider's listing yields any
    model id; a listing that succeeds with no model in it counts for
    nothing. *)
Theorem first_run_halts_iff_nothing_listed (w : world) (i : inputs) :
  fst (script w i fresh) = Raise StopException <->
  forall p, p ∈ PROVIDERS -> resp_yielded (listing w p) = [].
Proof.
  pose proof (startup_fresh_run w) as Hstart.
  match type of Hstart with _ = (_, ?s) => set (rt1 := s) in Hstart end.
  assert (Hms : session_state rt1 !! "models" = Some (VModels (merged w PROVIDERS []))).
  { subst rt1. cbn [session_state].
    rewrite lookup_insert_ne by done. apply lookup_insert_eq. }
  rewrite <- merged_nil. split.
  - intros Hstop. destruct (merged w PROVIDERS []) as [|kv ms] eqn:E; [done|].
    exfalso. by apply (script_passes_guard w i fresh rt1 (kv :: ms) Hstart Hms).
  - intros Hnil. rewrite Hnil in Hms. unfold script.
    rewrite (bind_Ret _ _ _ _ _ Hstart).
    by rewrite (bind_Raise _ _ _ _ _ (no_models_guard_stops rt1 Hms)).
Qed.

(** Both providers answer, with no model: the run halts all the same. *)
Lemma first_run_halts_iff_nothing_listed_witness :
  fst (script {| models_list := fun _ _ => CallReturns IterEnd;
                 chat_completions_create := fun _ _ _ => CallReturns IterEnd |}
         says_hello fresh) = Raise StopException.
Proof.
  apply first_run_halts_iff_nothing_listed. intros p _. reflexivity.
Defined.

(** ** The model selector *)

Lemma string_length_app (a b : string) :
  String.length (a +:+ b) = String.length a + String.length b.
Proof.
  induction a as [|x a IH]; [done|].
  change (S (String.length (a +:+ b)) = S (String.length a + String.length b)).
  by rewrite IH.
Qed.

(** Two strings with suffixes of the same length: the prefixes agree. *)
Lemma string_app_same_length_inj (a b s t : string) :
  a +:+ s = b +:+ t -> String.length s = String.length t -> a = b.
Proof.
  revert b. induction a as [|x a IH]; intros [|y b] Heq Hlen.
  - done.
  - exfalso. apply (f_equal String.length) in Heq.
    rewrite !string_length_app in Heq. simpl in Heq. lia.
  - exfalso. apply (f_equal String.length) in Heq.
    rewrite !string_length_app in Heq. simpl in Heq. lia.
  - change (String x (a +:+ s) = String y (b +:+ t)) in Heq.
    injection Heq as -> Heq. f_equal. by apply IH.
Qed.

(** The display names of the registry never confuse two ids. *)
Lemma display_name_of_inj p1 p2 id1 id2 :
  p1 ∈ PROVIDERS -> p2 ∈ PROVIDERS ->
  display_name_of id1 (snd p1) = display_name_of id2 (snd p2) -> id1 = id2.
Proof.
  unfold display_name_of. intros H1 H2 Heq.
  apply (string_app_same_length_inj _ _ _ _ Heq).
  unfold PROVIDERS in H1, H2.
  repeat (match goal with
          | H : _ ∈ _ :: _ |- _ => apply elem_of_cons in H as [->|H]
          | H : _ ∈ [] |- _ => by apply elem_of_nil in H
          end); reflexivity.
Qed.

(** Line 65 where display names are unambiguous: each entry's display name
    maps back to the entry's own id. *)
Lemma model_options_lookup ms :
  (forall kv1 kv2, kv1 ∈ ms -> kv2 ∈ ms ->
     m_display_name (snd kv1) = m_display_name (snd kv2) -> fst kv1 = fst kv2) ->
  forall kv, kv ∈ ms ->
    dict_get (model_options_of ms) (m_display_name (snd kv)) = Some (fst kv).
Proof.
  unfold model_options_of.
  induction ms as [|last ms IH] using rev_ind; intros Hinj kv Hkv.
  - by apply elem_of_nil in Hkv.
  - rewrite fold_left_app. simpl.
    assert (Hlast : last ∈ (ms ++ [last])%list)
      by (apply elem_of_app; right; apply list_elem_of_here).
    destruct (decide (m_display_name (snd last) = m_display_name (snd kv))) as [Heq|Hne].
    + rewrite Heq, dict_get_set_eq. f_equal. by apply Hinj.
    + rewrite dict_get_set_ne by done.
      apply elem_of_app in Hkv as [Hkv|Hkv].
      * apply IH; [|done]. intros kv1 kv2 H1 H2.
        apply Hinj; apply elem_of_app; by left.
      * apply list_elem_of_singleton in Hkv. by subst.
Qed.

Lemma merged_display_inj w kv1 kv2 :
  kv1 ∈ merged w PROVIDERS [] -> kv2 ∈ merged w PROVIDERS [] ->
  m_display_name (snd kv1) = m_display_name (snd kv2) -> fst kv1 = fst kv2.
Proof.
  intros H1 H2.
  destruct (merged_elem_of w PROVIDERS kv1 H1) as (p1 & Hp1 & ->).
  destruct (merged_elem_of w PROVIDERS kv2 H2) as (p2 & Hp2 & ->).
  simpl. by apply display_name_of_inj.
Qed.

(** X3. Every discovered model can be selected: in the options that line 65
    builds from a discovery result, the display name of a model leads back
    to that model's own id, so no model is hidden behind another one's
    name. *)
Theorem display_name_selects_model (w : world) (ms : pydict model_info)
    (es : list string) (l : locals) (id : string) (info : model_info) :
  discover_models w = (Ret (ms, es), l) ->
  dict_get ms id = Some info ->
  m_display_name info ∈ dict_keys (model_options_of ms) /\
  dict_get (model_options_of ms) (m_display_name info) = Some id.
Proof.
  rewrite discover_models_run. intros [= <- <- <-] Hget.
  assert (Hopt : dict_get (model_options_of (merged w PROVIDERS []))
                   (m_display_name info) = Some id).
  { apply (model_options_lookup _ (merged_display_inj w) (id, info)).
    by apply dict_get_elem_of. }
  split; [|done]. by eapply dict_get_Some_keys.
Qed.

(** [phi (Ollama)] selects [phi] in the collision scenario. *)
Lemma display_name_selects_model_witness :
  exists ms es l,
    discover_models w_collision = (Ret (ms, es), l) /\
    dict_get (model_options_of ms) "phi (Ollama)" = Some "phi".
Proof.
  eexists _, _, _. split; [reflexivity|].
  exact (proj2 (display_name_selects_model w_collision _ _ _ "phi" _
                  eq_refl eq_refl)).
Defined.

Lemma widget_value_stored (options : list string) key rt s :
  session_state rt !! key = Some (VStr s) -> s ∈ options ->
  widget_value options key rt =
  (Ret (Some s), {| session_state := <[key := VStr s]> (session_state rt);
                    data_cache := data_cache rt; trace := trace rt |}).
Proof.
  intros Hs Hin. unfold widget_value.
  rewrite (bind_Ret _ _ rt rt rt) by done. cbv zeta. rewrite Hs.
  by rewrite bool_decide_eq_true_2.
Qed.

Lemma widget_value_default (options : list string) key rt s :
  session_state rt !! key = None -> head options = Some s ->
  widget_value options key rt =
  (Ret (Some s), {| session_state := <[key := VStr s]> (session_state rt);
                    data_cache := data_cache rt; trace := trace rt |}).
Proof.
  intros Hnone Hhead. unfold widget_value.
  rewrite (bind_Ret _ _ rt rt rt) by done. cbv zeta. by rewrite Hnone, Hhead.
Qed.

(** Lines 64-76 once the widget has given [d] and [d] maps to [id]. *)
Lemma main_ui_selects w i ms rt d id :
  session_state rt !! "models" = Some (VModels ms) ->
  widget_value (dict_keys (model_options_of ms)) selected_model_key
    (selector_rendered ms rt)
    = (Ret (Some d), selected d (selector_rendered ms rt)) ->
  dict_get (model_options_of ms) d = Some id ->
  main_ui w i rt = after_selection w i ms id (selected d (selector_rendered ms rt)).
Proof.
  intros Hms Hwidget Hopt.
  unfold main_ui. rewrite (bind_Ret _ _ _ _ _ (ss_get_models_run ms rt Hms)).
  cbv zeta. rewrite (bind_Ret _ _ _ _ _ (emit_run _ _)).
  unfold selectbox. rewrite bind_assoc.
  rewrite (bind_Ret _ _ _ _ _ (emit_run _ _)).
  change (widget_value _ _) with
    (widget_value (dict_keys (model_options_of ms)) selected_model_key).
  match goal with |- bind (widget_value _ _) _ ?s = _ =>
    change s with (selector_rendered ms rt)
  end.
  rewrite (bind_Ret _ _ _ _ _ Hwidget).
  unfold dict_lookup at 1. rewrite Hopt. reflexivity.
Qed.

(** X4. With at least one model stored, the sidebar always ends up with a
    model id that is a key of the models mapping, whatever the session
    holds for the selector (nothing, a value that is no longer an option,
    or something that is not a string): the lookup of line 76 cannot raise,
    and the page below works on a discovered model. *)
Theorem selection_never_fails (w : world) (i : inputs)
    (ms : pydict model_info) (rt : runtime) :
  session_state rt !! "models" = Some (VModels ms) ->
  ms <> [] ->
  exists d id info,
    dict_get (model_options_of ms) d = Some id /\
    dict_get ms id = Some info /\
    main_ui w i rt = after_selection w i ms id (selected d (selector_rendered ms rt)).
Proof.
  intros Hms Hne.
  destruct (widget_value_run (dict_keys (model_options_of ms)) selected_model_key
              (selector_rendered ms rt) (model_options_not_nil ms Hne))
    as (d & Hd & Hrun).
  destruct (model_options_get ms d Hd) as (id & info & Hopt & Hinfo).
  exists d, id, info. split; [done|]. split; [done|].
  by apply main_ui_selects.
Qed.

(** A stale selection left over in the session: the first model is taken. *)
Lemma selection_never_fails_witness :
  exists d id info rt',
    dict_get (model_options_of ms_modelA) d = Some id /\
    dict_get ms_modelA id = Some info /\
    main_ui w_docker_only says_hello
      {| session_state :=
           <[selected_model_key := VStr "gone (Ollama)"]>
             {[ "models" := VModels ms_modelA ]};
         data_cache := None; trace := [] |}
    = after_selection w_docker_only says_hello ms_modelA id rt'.
Proof.
  destruct (selection_never_fails w_docker_only says_hello ms_modelA
              {| session_state :=
                   <[selected_model_key := VStr "gone (Ollama)"]>
                     {[ "models" := VModels ms_modelA ]};
                 data_cache := None; trace := [] |})
    as (d & id & info & Hopt & Hinfo & Hrun); [by vm_compute | discriminate |].
  eexists d, id, info, _. split; [exact Hopt|]. split; [exact Hinfo | exact Hrun].
Defined.

Lemma dict_set_head {V} (d : pydict V) k v :
  d <> [] -> head (dict_keys (dict_set d k v)) = head (dict_keys d).
Proof.
  destruct d as [|[k0 v0] d]; [done|]. intros _. simpl.
  by destruct (String.eqb k0 k).
Qed.

(** The first option is the display name of the first model. *)
Lemma model_options_head id info ms :
  head (dict_keys (model_options_of ((id, info) :: ms))) = Some (m_display_name info).
Proof.
  unfold model_options_of. simpl.
  assert (Hgen : forall (acc : pydict string), acc <> [] ->
            head (dict_keys (fold_left
              (fun acc kv => dict_set acc (m_display_name (snd kv)) (fst kv)) ms acc))
            = head (dict_keys acc)).
  { induction ms as [|kv ms IH]; intros acc Hacc; [done|]. simpl.
    rewrite IH by apply dict_set_not_nil. by apply dict_set_head. }
  by rewrite Hgen.
Qed.

(** X5. On a discovery result the page works on the model the selector
    names: when the session holds the display name of a discovered model
    for the selector, that model is the selected one; when it holds nothing
    yet, the selected model is the first discovered one (index 0). *)
Theorem selection_follows_widget (w0 w : world) (i : inputs)
    (ms : pydict model_info) (es : list string) (l : locals)
    (rt : runtime) (id : string) (info : model_info) :
  discover_models w0 = (Ret (ms, es), l) ->
  session_state rt !! "models" = Some (VModels ms) ->
  dict_get ms id = Some info ->
  session_state rt !! selected_model_key = Some (VStr (m_display_name info)) \/
  session_state rt !! selected_model_key = None /\ head ms = Some (id, info) ->
  main_ui w i rt =
  after_selection w i ms id
    (selected (m_display_name info) (selector_rendered ms rt)).
Proof.
  intros Hdisc Hms Hget Hwidget.
  assert (Hopt : m_display_name info ∈ dict_keys (model_options_of ms) /\
                 dict_get (model_options_of ms) (m_display_name info) = Some id).
  { revert Hget. rewrite discover_models_run in Hdisc.
    injection Hdisc as <- _ _. intros Hget. 
    assert (Hlook : dict_get (model_options_of (merged w0 PROVIDERS []))
                      (m_display_name info) = Some id).
    { apply (model_options_lookup _ (merged_display_inj w0) (id, info)).
      by apply dict_get_elem_of. }
    split; [by eapply dict_get_Some_keys | done]. }
  destruct Hopt as [Hin Hopt].
  apply main_ui_selects; [done| |done].
  destruct Hwidget as [Hstored|[Hnone Hhead]].
  - by apply widget_value_stored.
  - apply widget_value_default; [done|].
    destruct ms as [|[id0 info0] ms]; [done|].
    injection Hhead as -> ->. apply model_options_head.
Qed.

(** A first visit in the collision scenario: [llama3], the first model
    discovered, is the one selected. *)
Lemma selection_follows_widget_witness :
  main_ui w_collision says_hello rt_collision
  = after_selection w_collision says_hello ms_collision "llama3"
      (selected "llama3 (Docker)" (selector_rendered ms_collision rt_collision)).
Proof.
  refine (selection_follows_widget w_collision w_collision says_hello
            ms_collision [] (snd (discover_models w_collision)) rt_collision
            "llama3"
            {| m_name := "llama3"; m_provider := "docker";
               m_display_name := "llama3 (Docker)" |} _ _ _ _).
  - vm_compute. reflexivity.
  - vm_compute. reflexivity.
  - vm_compute. reflexivity.
  - right. split; [vm_compute; reflexivity | reflexivity].
Defined.

(** ** Whole runs of the script *)

(** From the top of the script to the selected model. *)
Lemma script_to_selection w i rt rt1 ms :
  startup w rt = (Ret tt, rt1) ->
  session_state rt1 !! "models" = Some (VModels ms) ->
  ms <> [] ->
  exists d id info,
    dict_get ms id = Some info /\
    script w i rt = after_selection w i ms id (selected d (selector_rendered ms rt1)).
Proof.
  intros Hstart Hms Hne.
  destruct (widget_value_run (dict_keys (model_options_of ms)) selected_model_key
              (selector_rendered ms rt1) (model_options_not_nil ms Hne))
    as (d & Hd & Hrun).
  destruct (model_options_get ms d Hd) as (id & info & Hopt & Hinfo).
  exists d, id, info. split; [done|].
  unfold script. rewrite (bind_Ret _ _ _ _ _ Hstart).
  rewrite (bind_Ret _ _ _ _ _ (no_models_guard_passes ms rt1 Hms Hne)).
  by apply main_ui_selects.
Qed.

Lemma show_transcript_trace id t rt :
  session_state rt !! messages_key id = Some (VMessages t) ->
  show_transcript id rt =
  (Ret tt, {| session_state := session_state rt;
              data_cache := data_cache rt;
              trace := trace rt ++ bubbles t |}).
Proof.
  intros Ht. unfold show_transcript.
  rewrite (bind_Ret _ _ _ _ _ (ss_get_messages_run id t rt Ht)).
  generalize rt. clear. induction t as [|m t IH]; intros [ss dc tr]; simpl.
  - unfold ret. by rewrite app_nil_r.
  - rewrite bind_assoc. do 2 rewrite (bind_Ret _ _ _ _ _ (emit_run _ _)).
    rewrite IH. simpl. by rewrite <- !app_assoc.
Qed.

(** X6. Pressing Clear Chat History wins over everything below it: the run
    empties the transcript of the selected model, which is a discovered one,
    and ends in a rerun right after the button.  The transcript is not
    rendered, the chat input is not rendered, and a text submitted in the
    same run is dropped: no message is appended and no completion request
    is sent. *)
Theorem clear_ends_the_run (w : world) (i : inputs) (rt rt1 : runtime)
    (ms : pydict model_info) :
  startup w rt = (Ret tt, rt1) ->
  session_state rt1 !! "models" = Some (VModels ms) ->
  ms <> [] ->
  clear_clicked i = true ->
  exists d id info,
    dict_get ms id = Some info /\
    script w i rt =
    (Raise RerunException,
     {| session_state :=
          <[messages_key id := VMessages []]>
            (<[selected_model_key := VStr d]> (session_state rt1));
        data_cache := data_cache rt1;
        trace := trace rt1
          ++ [Header "Configuration";
              Selectbox "Select a Model:" (dict_keys (model_options_of ms))
                selected_model_key;
              Button "Clear Chat History"] |}).
Proof.
  intros Hstart Hms Hne Hclear.
  destruct (script_to_selection w i rt rt1 ms Hstart Hms Hne)
    as (d & id & info & Hinfo & Hrun).
  exists d, id, info. split; [done|]. rewrite Hrun.
  unfold after_selection. rewrite (bind_Ret _ _ _ _ _ (emit_run _ _)).
  rewrite Hclear. unfold clear_chat_history.
  rewrite bind_assoc, (bind_Ret _ _ _ _ _ (ss_set_run _ _ _)).
  cbn [selected selector_rendered session_state data_cache trace].
  unfold bind, raise. simpl. by rewrite <- !app_assoc.
Qed.

(** The user presses the button and submits a text in the same run: the
    text leaves no trace. *)
Lemma clear_ends_the_run_witness :
  exists rt2,
    script w_docker_only
      {| picked := None; clear_clicked := true; submitted := Some "hello" |} fresh
    = (Raise RerunException, rt2) /\
    session_state rt2 !! messages_key "modelA" = Some (VMessages []) /\
    last (trace rt2) = Some (Button "Clear Chat History").
Proof.
  destruct (clear_ends_the_run w_docker_only
              {| picked := None; clear_clicked := true; submitted := Some "hello" |}
              fresh _ ms_modelA (startup_fresh_run w_docker_only))
    as (d & id & info & Hinfo & Hrun);
    [by vm_compute | discriminate | reflexivity |].
  assert (Hid : id = "modelA").
  { revert Hinfo. unfold ms_modelA, dict_get.
    destruct (String.eqb_spec "modelA" id); [done | discriminate]. }
  subst id. eexists. split; [exact Hrun|]. cbn [session_state trace].
  split; [apply lookup_insert_eq|].
  by rewrite last_app.
Defined.

(** X7. A run with no button pressed and no text submitted (nothing, or the
    empty string) only renders: below the selector it shows the Clear
    button, the stored transcript of the selected model as one role-tagged
    bubble per message in order, and the chat input.  The only things it
    stores are the selector's value and, for a model visited for the first
    time, an empty transcript; it sends no request. *)
Theorem idle_run_renders_transcript (w : world) (i : inputs) (rt rt1 : runtime)
    (ms : pydict model_info) :
  startup w rt = (Ret tt, rt1) ->
  session_state rt1 !! "models" = Some (VModels ms) ->
  ms <> [] ->
  (forall id v, session_state rt1 !! messages_key id = Some v ->
     exists t, v = VMessages t) ->
  clear_clicked i = false ->
  submitted i = None \/ submitted i = Some "" ->
  exists d id info t,
    dict_get ms id = Some info /\
    (session_state rt1 !! messages_key id = Some (VMessages t) \/
     session_state rt1 !! messages_key id = None /\ t = []) /\
    script w i rt =
    (Ret tt,
     {| session_state :=
          <[messages_key id := VMessages t]>
            (<[selected_model_key := VStr d]> (session_state rt1));
        data_cache := data_cache rt1;
        trace := trace rt1
          ++ [Header "Configuration";
              Selectbox "Select a Model:" (dict_keys (model_options_of ms))
                selected_model_key;
              Button "Clear Chat History"]
          ++ bubbles t
          ++ [ChatInput ("Message " +:+ id +:+ "...")] |}).
Proof.
  intros Hstart Hms Hne Htyped Hclear Hsub.
  destruct (script_to_selection w i rt rt1 ms Hstart Hms Hne)
    as (d & id & info & Hinfo & Hrun).
  set (ss1 := <[selected_model_key := VStr d]> (session_state rt1)).
  assert (Hsel : ss1 !! messages_key id = session_state rt1 !! messages_key id)
    by apply lookup_insert_ne, selected_not_messages.
  assert (Ht : exists t,
            (session_state rt1 !! messages_key id = Some (VMessages t) \/
             session_state rt1 !! messages_key id = None /\ t = []) /\
            forall dc tr,
              init_transcript id {| session_state := ss1; data_cache := dc; trace := tr |}
              = (Ret tt, {| session_state := <[messages_key id := VMessages t]> ss1;
                            data_cache := dc; trace := tr |})).
  { destruct (session_state rt1 !! messages_key id) as [v|] eqn:E.
    - destruct (Htyped id v E) as [t ->]. exists t. split; [by left|].
      intros dc tr. unfold init_transcript.
      rewrite (bind_Ret _ _ _ _ _ (ss_contains_run _ _)). cbn [session_state].
      rewrite Hsel. by rewrite insert_id.
    - exists []. split; [by right|]. intros dc tr. unfold init_transcript.
      rewrite (bind_Ret _ _ _ _ _ (ss_contains_run _ _)). cbn [session_state].
      by rewrite Hsel. }
  destruct Ht as (t & Hbefore & Hinit).
  exists d, id, info, t. split; [done|]. split; [done|].
  rewrite Hrun. unfold after_selection.
  rewrite (bind_Ret _ _ _ _ _ (emit_run _ _)). rewrite Hclear.
  rewrite (bind_Ret (ret tt) _ _ tt _ eq_refl).
  cbn [selected selector_rendered session_state data_cache trace]. fold ss1.
  rewrite (bind_Ret _ _ _ _ _ (Hinit _ _)).
  rewrite (bind_Ret _ _ _ _ _ (show_transcript_trace id t _ (lookup_insert_eq _ _ _))).
  cbn [session_state data_cache trace].
  unfold chat_input_handler. rewrite (bind_Ret _ _ _ _ _ (emit_run _ _)).
  cbn [session_state data_cache trace].
  assert (Hnothing : match submitted i with
                     | Some prompt =>
                         if String.eqb prompt "" then ret tt
                         else chat_turn w ms id prompt
                     | None => ret tt
                     end = ret tt)
    by (by destruct Hsub as [-> | ->]).
  rewrite Hnothing. unfold ret. by rewrite <- !app_assoc.
Qed.

(** A first visit with nothing typed: the empty transcript of [modelA] is
    created and the page is rendered down to the chat input. *)
Lemma idle_run_renders_transcript_witness :
  exists rt2,
    script w_docker_only
      {| picked := None; clear_clicked := false; submitted := Some "" |} fresh
    = (Ret tt, rt2) /\
    session_state rt2 !! messages_key "modelA" = Some (VMessages []) /\
    last (trace rt2) = Some (ChatInput "Message modelA...").
Proof.
  destruct (idle_run_renders_transcript w_docker_only
              {| picked := None; clear_clicked := false; submitted := Some "" |}
              fresh _ ms_modelA (startup_fresh_run w_docker_only))
    as (d & id & info & t & Hinfo & Hbefore & Hrun).
  - by vm_compute.
  - discriminate.
  - intros id v. cbn [session_state].
    rewrite lookup_insert_ne by apply errors_not_messages.
    rewrite lookup_insert_ne by apply models_not_messages.
    by rewrite lookup_empty.
  - reflexivity.
  - by right.
  - assert (Hid : id = "modelA").
    { revert Hinfo. unfold ms_modelA, dict_get.
      destruct (String.eqb_spec "modelA" id); [done | discriminate]. }
    subst id.
    assert (Ht : t = []).
    { destruct Hbefore as [Hsome|[_ ->]]; [|done].
      cbn [session_state] in Hsome.
      rewrite lookup_insert_ne in Hsome by apply errors_not_messages.
      rewrite lookup_insert_ne in Hsome by apply models_not_messages.
      by rewrite lookup_empty in Hsome. }
    subst t. eexists. split; [exact Hrun|]. cbn [session_state trace].
    split; [apply lookup_insert_eq|].
    by rewrite !last_app.
Defined.

(** Lines 78-89 when the button is not pressed: the run reaches the chat
    input with the transcript of the selected model in place and shown. *)
Lemma after_selection_to_input w i ms id d rt1 :
  (forall id v, session_state rt1 !! messages_key id = Some v ->
     exists t, v = VMessages t) ->
  clear_clicked i = false ->
  exists t,
    (session_state rt1 !! messages_key id = Some (VMessages t) \/
     session_state rt1 !! messages_key id = None /\ t = []) /\
    after_selection w i ms id (selected d (selector_rendered ms rt1)) =
    chat_input_handler w ms id (submitted i)
      {| session_state :=
           <[messages_key id := VMessages t]>
             (<[selected_model_key := VStr d]> (session_state rt1));
         data_cache := data_cache rt1;
         trace := trace rt1
           ++ [Header "Configuration";
               Selectbox "Select a Model:" (dict_keys (model_options_of ms))
                 selected_model_key;
               Button "Clear Chat History"]
           ++ bubbles t |}.
Proof.
  intros Htyped Hclear.
  set (ss1 := <[selected_model_key := VStr d]> (session_state rt1)).
  assert (Hsel : ss1 !! messages_key id = session_state rt1 !! messages_key id)
    by apply lookup_insert_ne, selected_not_messages.
  assert (Ht : exists t,
            (session_state rt1 !! messages_key id = Some (VMessages t) \/
             session_state rt1 !! messages_key id = None /\ t = []) /\
            forall dc tr,
              init_transcript id {| session_state := ss1; data_cache := dc; trace := tr |}
              = (Ret tt, {| session_state := <[messages_key id := VMessages t]> ss1;
                            data_cache := dc; trace := tr |})).
  { destruct (session_state rt1 !! messages_key id) as [v|] eqn:E.
    - destruct (Htyped id v E) as [t ->]. exists t. split; [by left|].
      intros dc tr. unfold init_transcript.
      rewrite (bind_Ret _ _ _ _ _ (ss_contains_run _ _)). cbn [session_state].
      rewrite Hsel. by rewrite insert_id.
    - exists []. split; [by right|]. intros dc tr. unfold init_transcript.
      rewrite (bind_Ret _ _ _ _ _ (ss_contains_run _ _)). cbn [session_state].
      by rewrite Hsel. }
  destruct Ht as (t & Hbefore & Hinit).
  exists t. split; [done|]. unfold after_selection.
  rewrite (bind_Ret _ _ _ _ _ (emit_run _ _)). rewrite Hclear.
  rewrite (bind_Ret (ret tt) _ _ tt _ eq_refl).
  cbn [selected selector_rendered session_state data_cache trace]. fold ss1.
  rewrite (bind_Ret _ _ _ _ _ (Hinit _ _)).
  rewrite (bind_Ret _ _ _ _ _ (show_transcript_trace id t _ (lookup_insert_eq _ _ _))).
  cbn [session_state data_cache trace]. by rewrite <- !app_assoc.
Qed.

(** X8. A run in which the user submits a non-empty text, in a session
    whose models resolve to registry providers: the script selects a
    discovered model, creates its transcript if there is none, renders the
    page, calls [client.chat.completions.create] exactly once, on a client
    of the provider that owns the model and with the transcript so far and
    the new message, and stores the user's message and the reply after the
    transcript.  Every element the run renders and every client call it
    makes is spelled out by its trace; the HTTP requests the library sends
    for the one call, retries included, are below this model. *)
Theorem chat_through_script (w : world) (i : inputs) (rt rt1 : runtime)
    (ms : pydict model_info) (prompt : string) :
  startup w rt = (Ret tt, rt1) ->
  session_state rt1 !! "models" = Some (VModels ms) ->
  ms <> [] ->
  (forall id info, dict_get ms id = Some info ->
     is_Some (dict_get PROVIDERS (m_provider info))) ->
  (forall id v, session_state rt1 !! messages_key id = Some v ->
     exists t, v = VMessages t) ->
  clear_clicked i = false ->
  submitted i = Some prompt ->
  prompt <> "" ->
  exists d id info cfg t,
    dict_get ms id = Some info /\
    dict_get PROVIDERS (m_provider info) = Some cfg /\
    (session_state rt1 !! messages_key id = Some (VMessages t) \/
     session_state rt1 !! messages_key id = None /\ t = []) /\
    let user := {| role := "user"; content := prompt |} in
    let req := request_of id (t ++ [user]) in
    let r := chat_completions_create w (p_url cfg) (p_api_key cfg) req in
    script w i rt =
    (Ret tt,
     {| session_state :=
          <[messages_key id := VMessages (t ++ [user; reply_of r])]>
            (<[selected_model_key := VStr d]> (session_state rt1));
        data_cache := data_cache rt1;
        trace := trace rt1
          ++ [Header "Configuration";
              Selectbox "Select a Model:" (dict_keys (model_options_of ms))
                selected_model_key;
              Button "Clear Chat History"]
          ++ bubbles t
          ++ [ChatInput ("Message " +:+ id +:+ "...");
              ChatMessage "user"; Markdown prompt; ChatMessage "assistant";
              ChatCompletionsCall (p_url cfg) (p_api_key cfg) req]
          ++ reply_events r |}).
Proof.
  intros Hstart Hms Hne Hprov Htyped Hclear Hsub Hprompt.
  destruct (script_to_selection w i rt rt1 ms Hstart Hms Hne)
    as (d & id & info & Hinfo & Hrun).
  destruct (Hprov id info Hinfo) as [cfg Hcfg].
  destruct (after_selection_to_input w i ms id d rt1 Htyped Hclear)
    as (t & Hbefore & Hafter).
  exists d, id, info, cfg, t. split; [done|]. split; [done|]. split; [done|].
  intros user req r. rewrite Hrun, Hafter, Hsub.
  unfold chat_input_handler. rewrite (bind_Ret _ _ _ _ _ (emit_run _ _)).
  destruct (String.eqb_spec prompt "") as [Hempty|_]; [by destruct Hprompt|].
  match goal with |- chat_turn _ _ _ _ ?s = _ => set (rt_in := s) end.
  rewrite (chat_turn_run w ms id prompt info cfg t rt_in Hinfo Hcfg
             (lookup_insert_eq _ _ _)).
  subst rt_in. cbn [session_state data_cache trace].
  rewrite insert_insert_eq. fold user req r.
  do 2 f_equal. rewrite <- !app_assoc. reflexivity.
Qed.

(** The first visit of the streaming scenario, from the fresh session to
    the stored reply. *)
Lemma chat_through_script_witness :
  exists rt2,
    script w_docker_only says_hello fresh = (Ret tt, rt2) /\
    session_state rt2 !! messages_key "modelA" =
      Some (VMessages [{| role := "user"; content := "hello" |};
                       {| role := "assistant"; content := "Hi there!" |}]).
Proof.
  destruct (chat_through_script w_docker_only says_hello fresh _ ms_modelA "hello"
              (startup_fresh_run w_docker_only))
    as (d & id & info & cfg & t & Hinfo & Hcfg & Hbefore & Hrun).
  - by vm_compute.
  - discriminate.
  - intros id info. unfold ms_modelA, dict_get.
    destruct (String.eqb "modelA" id); [|done]. intros [= <-]. by eexists.
  - intros id v. cbn [session_state].
    rewrite lookup_insert_ne by apply errors_not_messages.
    rewrite lookup_insert_ne by apply models_not_messages.
    by rewrite lookup_empty.
  - reflexivity.
  - reflexivity.
  - discriminate.
  - assert (Hid : id = "modelA").
    { revert Hinfo. unfold ms_modelA, dict_get.
      destruct (String.eqb_spec "modelA" id); [done | discriminate]. }
    subst id.
    assert (Hinfo' : info = {| m_name := "modelA"; m_provider := "docker";
                               m_display_name := "modelA (Docker)" |})
      by (vm_compute in Hinfo; congruence).
    subst info. vm_compute in Hcfg. injection Hcfg as <-.
    assert (Ht : t = []).
    { destruct Hbefore as [Hsome|[_ ->]]; [|done].
      cbn [session_state] in Hsome.
      rewrite lookup_insert_ne in Hsome by apply errors_not_messages.
      rewrite lookup_insert_ne in Hsome by apply models_not_messages.
      by rewrite lookup_empty in Hsome. }
    subst t. cbv zeta in Hrun.
    eexists. split; [exact Hrun|]. cbn [session_state].
    rewrite lookup_insert_eq. reflexivity.
Defined.

(** ** Edges of the chat turn *)

(** X9. The chat turn looks up the model, its provider and the transcript
    before it appends or sends anything, and outside the [try]: a model id
    that is not in the models mapping, a provider key that is not in the
    registry, or a transcript that was never created raise a [KeyError]
    that is not turned into an assistant message, and leave the session
    state and the trace exactly as they were. *)
Theorem chat_turn_unresolved_changes_nothing (w : world)
    (ms : pydict model_info) (id prompt : string) (rt : runtime) :
  (dict_get ms id = None ->
     chat_turn w ms id prompt rt = (Raise (KeyError id), rt)) /\
  (forall info,
     dict_get ms id = Some info ->
     dict_get PROVIDERS (m_provider info) = None ->
     chat_turn w ms id prompt rt = (Raise (KeyError (m_provider info)), rt)) /\
  (forall info cfg,
     dict_get ms id = Some info ->
     dict_get PROVIDERS (m_provider info) = Some cfg ->
     session_state rt !! messages_key id = None ->
     chat_turn w ms id prompt rt = (Raise (KeyError (messages_key id)), rt)).
Proof.
  split; [|split].
  - intros Hnone. unfold chat_turn, resolve_provider, dict_lookup.
    rewrite Hnone. reflexivity.
  - intros info Hget Hnone. unfold chat_turn, resolve_provider, dict_lookup.
    rewrite Hget. unfold bind at 2. unfold ret at 1. cbv beta iota.
    rewrite Hnone. reflexivity.
  - intros info cfg Hget Hcfg Hnone. unfold chat_turn.
    rewrite (bind_Ret _ _ _ _ _ (resolve_provider_run _ _ _ _ _ Hget Hcfg)).
    unfold transcript_append, ss_get_messages.
    rewrite bind_assoc, bind_assoc, (bind_Ret _ _ rt rt rt) by done.
    rewrite Hnone. reflexivity.
Qed.

(** A model id that discovery never stored. *)
Lemma chat_turn_unresolved_changes_nothing_witness :
  chat_turn w_docker_only ms_modelA "modelB" "hello" rt_modelA
  = (Raise (KeyError "modelB"), rt_modelA).
Proof.
  exact (proj1 (chat_turn_unresolved_changes_nothing w_docker_only ms_modelA
                  "modelB" "hello" rt_modelA) eq_refl).
Defined.

(** X10. When the stream raises after some fragments have arrived, the
    fragments stay on the display, followed by the error, but none of them
    is stored: the assistant message of the turn is the error text alone. *)
Theorem interrupted_stream_is_shown_not_stored (w : world)
    (ms : pydict model_info) (id : string) (info : model_info)
    (cfg : provider_config) (prompt : string) (t : list message)
    (rt : runtime) (it : iter string) (e : string) :
  dict_get ms id = Some info ->
  dict_get PROVIDERS (m_provider info) = Some cfg ->
  session_state rt !! messages_key id = Some (VMessages t) ->
  let user := {| role := "user"; content := prompt |} in
  let req := request_of id (t ++ [user]) in
  chat_completions_create w (p_url cfg) (p_api_key cfg) req = CallReturns it ->
  failure it = Some e ->
  chat_turn w ms id prompt rt =
  (Ret tt,
   {| session_state :=
        <[messages_key id :=
            VMessages (t ++ [user; {| role := "assistant";
                                      content := "An error occurred: " +:+ e |}])]>
          (session_state rt);
      data_cache := data_cache rt;
      trace := trace rt
        ++ [ChatMessage "user"; Markdown prompt; ChatMessage "assistant";
            ChatCompletionsCall (p_url cfg) (p_api_key cfg) req]
        ++ map StreamChunk (yielded it)
        ++ [Error ("An error occurred: " +:+ e)] |}).
Proof.
  intros Hget Hcfg Ht user req Hcall Hfail.
  rewrite (chat_turn_run w ms id prompt info cfg t rt Hget Hcfg Ht).
  fold user req. rewrite Hcall.
  unfold reply_of, reply_events. simpl. by rewrite Hfail.
Qed.

(** The stream breaks after "Hi": the fragment is shown, the stored
    message is the error text. *)
Lemma interrupted_stream_is_shown_not_stored_witness :
  exists rt',
    chat_turn w_broken ms_modelA "modelA" "hello" rt_modelA = (Ret tt, rt') /\
    session_state rt' !! messages_key "modelA" =
      Some (VMessages [{| role := "user"; content := "hello" |};
                       {| role := "assistant";
                          content := "An error occurred: connection lost" |}]) /\
    trace rt' =
      [ChatMessage "user"; Markdown "hello"; ChatMessage "assistant";
       ChatCompletionsCall "http://localhost:12434/engines/v1" "unused"
         {| req_model := "modelA"; req_messages := [("user", "hello")];
            req_stream := true |};
       StreamChunk "Hi"; Error "An error occurred: connection lost"].
Proof.
  eexists. split.
  - exact (interrupted_stream_is_shown_not_stored w_broken ms_modelA "modelA" _ _
             "hello" [] rt_modelA _ "connection lost"
             eq_refl eq_refl eq_refl eq_refl eq_refl).
  - cbn [session_state trace]. split; [|reflexivity].
    rewrite lookup_insert_eq. reflexivity.
Defined.

(** ** Turns in sequence *)

(** X11. The conversation carries over: the request of a turn contains, in
    order, everything the earlier turn left in the transcript, that is the
    earlier user message and the earlier assistant message (an error text
    included), followed by the new user message. *)
Theorem next_turn_sends_history (w1 w2 : world) (ms : pydict model_info)
    (id : string) (info : model_info) (cfg : provider_config)
    (p1 p2 : string) (t : list message) (rt : runtime) :
  dict_get ms id = Some info ->
  dict_get PROVIDERS (m_provider info) = Some cfg ->
  session_state rt !! messages_key id = Some (VMessages t) ->
  let u1 := {| role := "user"; content := p1 |} in
  let u2 := {| role := "user"; content := p2 |} in
  let a1 := reply_of (chat_completions_create w1 (p_url cfg) (p_api_key cfg)
                        (request_of id (t ++ [u1]))) in
  exists rt1 rt2 shown,
    chat_turn w1 ms id p1 rt = (Ret tt, rt1) /\
    chat_turn w2 ms id p2 rt1 = (Ret tt, rt2) /\
    trace rt2 =
      (trace rt1
         ++ [ChatMessage "user"; Markdown p2; ChatMessage "assistant";
             ChatCompletionsCall (p_url cfg) (p_api_key cfg)
               {| req_model := id;
                  req_messages :=
                    map (fun m => (role m, content m)) (t ++ [u1; a1; u2]);
                  req_stream := true |}]
         ++ shown)%list.
Proof.
  intros Hget Hcfg Ht u1 u2 a1.
  pose proof (chat_turn_run w1 ms id p1 info cfg t rt Hget Hcfg Ht) as H1.
  cbv zeta in H1. fold u1 a1 in H1.
  match type of H1 with _ = (_, ?s) => set (rt1 := s) in H1 end.
  assert (Ht1 : session_state rt1 !! messages_key id = Some (VMessages (t ++ [u1; a1])))
    by apply lookup_insert_eq.
  pose proof (chat_turn_run w2 ms id p2 info cfg _ rt1 Hget Hcfg Ht1) as H2.
  cbv zeta in H2. fold u2 in H2.
  eexists rt1, _, _. split; [exact H1|]. split; [exact H2|].
  cbn [trace]. unfold request_of. by rewrite <- !app_assoc.
Qed.

(** A timeout, then a second try: the error text of the first turn goes to
    the provider as an assistant message. *)
Lemma next_turn_sends_history_witness :
  exists rt1 rt2 shown,
    chat_turn w_timeout ms_modelA "modelA" "hello" rt_modelA = (Ret tt, rt1) /\
    chat_turn w_docker_only ms_modelA "modelA" "again" rt1 = (Ret tt, rt2) /\
    trace rt2 =
      (trace rt1
         ++ [ChatMessage "user"; Markdown "again"; ChatMessage "assistant";
             ChatCompletionsCall "http://localhost:12434/engines/v1" "unused"
               {| req_model := "modelA";
                  req_messages :=
                    [("user", "hello");
                     ("assistant", "An error occurred: Request timed out.");
                     ("user", "again")];
                  req_stream := true |}]
         ++ shown)%list.
Proof.
  exact (next_turn_sends_history w_timeout w_docker_only ms_modelA "modelA" _ _
           "hello" "again" [] rt_modelA eq_refl eq_refl eq_refl).
Defined.

(** X12. After Clear Chat History the next turn starts over: whatever the
    transcript held, the request carries the new user message only, and the
    transcript afterwards holds that message and its reply. *)
Theorem turn_after_clear_starts_over (w : world) (ms : pydict model_info)
    (id : string) (info : model_info) (cfg : provider_config)
    (prompt : string) (rt : runtime) :
  dict_get ms id = Some info ->
  dict_get PROVIDERS (m_provider info) = Some cfg ->
  let cleared := snd (clear_chat_history id rt) in
  let user := {| role := "user"; content := prompt |} in
  let req := {| req_model := id; req_messages := [("user", prompt)];
                req_stream := true |} in
  let r := chat_completions_create w (p_url cfg) (p_api_key cfg) req in
  chat_turn w ms id prompt cleared =
  (Ret tt,
   {| session_state :=
        <[messages_key id := VMessages [user; reply_of r]]> (session_state rt);
      data_cache := data_cache rt;
      trace := trace rt
        ++ [ChatMessage "user"; Markdown prompt; ChatMessage "assistant";
            ChatCompletionsCall (p_url cfg) (p_api_key cfg) req]
        ++ reply_events r |}).
Proof.
  intros Hget Hcfg cleared user req r.
  assert (Hc : session_state cleared !! messages_key id = Some (VMessages []))
    by apply lookup_insert_eq.
  rewrite (chat_turn_run w ms id prompt info cfg [] cleared Hget Hcfg Hc).
  subst cleared. cbn [snd clear_chat_history session_state data_cache trace].
  unfold clear_chat_history, bind, ss_set, modify, raise.
  cbn [snd session_state data_cache trace].
  by rewrite insert_insert_eq.
Qed.

(** Clearing a transcript that held a message, then saying hello. *)
Lemma turn_after_clear_starts_over_witness :
  exists rt',
    chat_turn w_docker_only ms_modelA "modelA" "hello"
      (snd (clear_chat_history "modelA" rt_two)) = (Ret tt, rt') /\
    session_state rt' !! messages_key "modelA" =
      Some (VMessages [{| role := "user"; content := "hello" |};
                       {| role := "assistant"; content := "Hi there!" |}]).
Proof.
  eexists. split.
  - exact (turn_after_clear_starts_over w_docker_only ms_modelA "modelA" _ _
             "hello" rt_two eq_refl eq_refl).
  - cbn [session_state]. rewrite lookup_insert_eq. reflexivity.
Defined.

(** ** Across runs and sessions *)

(** X13. No run of the script shortens or rewrites a stored transcript
    unless Clear Chat History is pressed in it: through any sequence of
    interactions without that button, whatever the user picks or submits,
    whatever the providers answer and whether or not a run ends in an
    uncaught exception, every transcript keeps what it held, in place, and
    can only have grown at its end. *)
Theorem transcripts_survive_without_clear (runs : list (world * inputs))
    (rt : runtime) (id : string) (t : list message) :
  Forall (fun r => clear_clicked (snd r) = false) runs ->
  session_state rt !! messages_key id = Some (VMessages t) ->
  exists t',
    session_state (run_all runs rt) !! messages_key id = Some (VMessages (t ++ t')).
Proof.
  intros Hruns Ht. exact (run_all_extends runs rt Hruns id t Ht).
Qed.

(** Two chats with [modelA], the second one failing: the transcript of
    [modelB] is still there. *)
Lemma transcripts_survive_without_clear_witness :
  exists t',
    session_state
      (run_all [(w_docker_only, says_hello); (w_timeout, says_hello)] rt_two)
      !! messages_key "modelB"
    = Some (VMessages ([{| role := "user"; content := "hi B" |}] ++ t')).
Proof.
  apply (transcripts_survive_without_clear
           [(w_docker_only, says_hello); (w_timeout, says_hello)] rt_two "modelB").
  - repeat constructor.
  - by vm_compute.
Defined.

(** X14. The cache of [discover_models] belongs to the process, not to the
    session: a session that begins while the cache holds a result stores
    that result as its models and errors and sends no listing request,
    whatever the providers would answer now. *)
Theorem new_session_reuses_cache (w : world) (rt : runtime)
    (r : pydict model_info * list string) :
  data_cache rt = Some r ->
  session_state rt !! "models" = None ->
  init_discovery w rt =
  (Ret tt,
   {| session_state :=
        <["errors" := VErrors (snd r)]>
          (<["models" := VModels (fst r)]> (session_state rt));
      data_cache := Some r;
      trace := trace rt ++ [Spinner "Discovering local models..."] |}).
Proof.
  intros Hcache Hnone. unfold init_discovery.
  rewrite (bind_Ret _ _ _ _ _ (ss_contains_run _ _)), Hnone.
  rewrite (bind_Ret _ _ _ _ _ (emit_run _ _)).
  unfold bind at 1. rewrite discover_models_cached_run. cbn [data_cache].
  rewrite Hcache.
  rewrite (bind_Ret _ _ _ _ _ (ss_set_run _ _ _)). rewrite ss_set_run.
  reflexivity.
Qed.

(** A second session in a process that first ran with nothing reachable:
    Docker is up by now, and the session still gets no model. *)
Lemma new_session_reuses_cache_witness :
  exists rt1,
    init_discovery w_docker_only
      {| session_state := ∅;
         data_cache := data_cache (snd (startup w_down fresh));
         trace := [] |} = (Ret tt, rt1) /\
    session_state rt1 !! "models" = Some (VModels []) /\
    trace rt1 = [Spinner "Discovering local models..."].
Proof.
  eexists. split.
  - apply (new_session_reuses_cache w_docker_only
             {| session_state := ∅;
                data_cache := data_cache (snd (startup w_down fresh));
                trace := [] |}
             ([], flat_map (error_of w_down) PROVIDERS)).
    + by vm_compute.
    + apply lookup_empty.
  - cbn [session_state trace]. split; [|reflexivity].
    rewrite lookup_insert_ne by done. by rewrite lookup_insert_eq.
Defined.

(** X15. A run in a session that already holds its models and errors
    queries no provider and changes neither the session state nor the
    cache: above the guard it renders the page head and then every stored
    discovery error again as a warning, in the stored order. *)
Theorem rerun_shows_stored_warnings (w : world) (rt : runtime)
    (v : value) (es : list string) :
  session_state rt !! "models" = Some v ->
  session_state rt !! "errors" = Some (VErrors es) ->
  startup w rt =
  (Ret tt,
   {| session_state := session_state rt;
      data_cache := data_cache rt;
      trace := trace rt
        ++ [PageConfig "LLM Chat Interface" "wide"; Title "🤖 Unified LLM Chat";
            Write "Select a model from any running provider to start chatting."]
        ++ map Warning es |}).
Proof.
  intros Hm He. unfold startup.
  do 3 rewrite (bind_Ret _ _ _ _ _ (emit_run _ _)).
  match goal with |- context [bind _ _ ?s] =>
    assert (Hs : is_Some (session_state s !! "models")) by (by exists v);
    rewrite (bind_Ret _ _ _ _ _ (init_discovery_loaded w s Hs))
  end.
  rewrite (show_errors_run es) by done.
  cbn [session_state data_cache trace]. by rewrite <- !app_assoc.
Qed.

(** The session of the first scenario, visited again after Ollama came up:
    the warning about Ollama is shown again and nothing is queried. *)
Lemma rerun_shows_stored_warnings_witness :
  let rt1 := snd (startup w_docker_only fresh) in
  startup w_collision rt1 =
  (Ret tt,
   {| session_state := session_state rt1;
      data_cache := data_cache rt1;
      trace := trace rt1
        ++ [PageConfig "LLM Chat Interface" "wide"; Title "🤖 Unified LLM Chat";
            Write "Select a model from any running provider to start chatting."]
        ++ map Warning
             ["Could not connect to Ollama at http://localhost:11434/v1: Connection error."] |}).
Proof.
  apply (rerun_shows_stored_warnings w_collision _ (VModels ms_modelA)).
  - by vm_compute.
  - by vm_compute.
Defined.
